(** * The VDBE opcode table of SQLCipher (tsrc/opcodes.h)

    [opcodes.h] is generated by tool/mkopcodeh.tcl.  It holds three things:
    the opcode numbers [OP_Savepoint] .. [OP_Abortable], the table
    [OPFLG_INITIALIZER] of operand-role flags (one byte per opcode, the
    initialiser of [sqlite3OpcodeProperty]), and the bound
    [SQLITE_MX_JUMP_OPCODE] used by the pass that resolves P2 operands.

    The header is embedded as it is written: every [#define] is a
    definition of the same name and value, the comment of an opcode is kept
    as a string, and the flag table is the list of its bytes in hexadecimal.
    The properties proved below are properties of that table. *)

From Stdlib Require Import ZArith List String Ascii Bool Lia.
From stdpp Require Import base option list gmap strings.

Local Open Scope string_scope.
Local Open Scope Z_scope.

(** ** Opcode numbers *)

Module Opcode.

Definition OP_Savepoint : Z := 0.
Definition OP_AutoCommit : Z := 1.
Definition OP_Transaction : Z := 2.
Definition OP_Checkpoint : Z := 3.
Definition OP_JournalMode : Z := 4.
Definition OP_Vacuum : Z := 5.
Definition OP_VFilter : Z := 6.
Definition OP_VUpdate : Z := 7.
Definition OP_Init : Z := 8.
Definition OP_Goto : Z := 9.
Definition OP_Gosub : Z := 10.
Definition OP_InitCoroutine : Z := 11.
Definition OP_Yield : Z := 12.
Definition OP_MustBeInt : Z := 13.
Definition OP_Jump : Z := 14.
Definition OP_Once : Z := 15.
Definition OP_If : Z := 16.
Definition OP_IfNot : Z := 17.
Definition OP_IsType : Z := 18.
Definition OP_Not : Z := 19.
Definition OP_IfNullRow : Z := 20.
Definition OP_SeekLT : Z := 21.
Definition OP_SeekLE : Z := 22.
Definition OP_SeekGE : Z := 23.
Definition OP_SeekGT : Z := 24.
Definition OP_IfNotOpen : Z := 25.
Definition OP_IfNoHope : Z := 26.
Definition OP_NoConflict : Z := 27.
Definition OP_NotFound : Z := 28.
Definition OP_Found : Z := 29.
Definition OP_SeekRowid : Z := 30.
Definition OP_NotExists : Z := 31.
Definition OP_Last : Z := 32.
Definition OP_IfSizeBetween : Z := 33.
Definition OP_SorterSort : Z := 34.
Definition OP_Sort : Z := 35.
Definition OP_Rewind : Z := 36.
Definition OP_IfEmpty : Z := 37.
Definition OP_SorterNext : Z := 38.
Definition OP_Prev : Z := 39.
Definition OP_Next : Z := 40.
Definition OP_IdxLE : Z := 41.
Definition OP_IdxGT : Z := 42.
Definition OP_Or : Z := 43.
Definition OP_And : Z := 44.
Definition OP_IdxLT : Z := 45.
Definition OP_IdxGE : Z := 46.
Definition OP_RowSetRead : Z := 47.
Definition OP_RowSetTest : Z := 48.
Definition OP_Program : Z := 49.
Definition OP_FkIfZero : Z := 50.
Definition OP_IsNull : Z := 51.
Definition OP_NotNull : Z := 52.
Definition OP_Ne : Z := 53.
Definition OP_Eq : Z := 54.
Definition OP_Gt : Z := 55.
Definition OP_Le : Z := 56.
Definition OP_Lt : Z := 57.
Definition OP_Ge : Z := 58.
Definition OP_ElseEq : Z := 59.
Definition OP_IfPos : Z := 60.
Definition OP_IfNotZero : Z := 61.
Definition OP_DecrJumpZero : Z := 62.
Definition OP_IncrVacuum : Z := 63.
Definition OP_VNext : Z := 64.
Definition OP_Filter : Z := 65.
Definition OP_PureFunc : Z := 66.
Definition OP_Function : Z := 67.
Definition OP_Return : Z := 68.
Definition OP_EndCoroutine : Z := 69.
Definition OP_HaltIfNull : Z := 70.
Definition OP_Halt : Z := 71.
Definition OP_Integer : Z := 72.
Definition OP_Int64 : Z := 73.
Definition OP_String : Z := 74.
Definition OP_BeginSubrtn : Z := 75.
Definition OP_Null : Z := 76.
Definition OP_SoftNull : Z := 77.
Definition OP_Blob : Z := 78.
Definition OP_Variable : Z := 79.
Definition OP_Move : Z := 80.
Definition OP_Copy : Z := 81.
Definition OP_SCopy : Z := 82.
Definition OP_IntCopy : Z := 83.
Definition OP_FkCheck : Z := 84.
Definition OP_ResultRow : Z := 85.
Definition OP_CollSeq : Z := 86.
Definition OP_AddImm : Z := 87.
Definition OP_RealAffinity : Z := 88.
Definition OP_Cast : Z := 89.
Definition OP_Permutation : Z := 90.
Definition OP_Compare : Z := 91.
Definition OP_IsTrue : Z := 92.
Definition OP_ZeroOrNull : Z := 93.
Definition OP_Offset : Z := 94.
Definition OP_Column : Z := 95.
Definition OP_TypeCheck : Z := 96.
Definition OP_Affinity : Z := 97.
Definition OP_MakeRecord : Z := 98.
Definition OP_Count : Z := 99.
Definition OP_ReadCookie : Z := 100.
Definition OP_SetCookie : Z := 101.
Definition OP_ReopenIdx : Z := 102.
Definition OP_BitAnd : Z := 103.
Definition OP_BitOr : Z := 104.
Definition OP_ShiftLeft : Z := 105.
Definition OP_ShiftRight : Z := 106.
Definition OP_Add : Z := 107.
Definition OP_Subtract : Z := 108.
Definition OP_Multiply : Z := 109.
Definition OP_Divide : Z := 110.
Definition OP_Remainder : Z := 111.
Definition OP_Concat : Z := 112.
Definition OP_OpenRead : Z := 113.
Definition OP_OpenWrite : Z := 114.
Definition OP_BitNot : Z := 115.
Definition OP_OpenDup : Z := 116.
Definition OP_OpenAutoindex : Z := 117.
Definition OP_String8 : Z := 118.
Definition OP_OpenEphemeral : Z := 119.
Definition OP_SorterOpen : Z := 120.
Definition OP_SequenceTest : Z := 121.
Definition OP_OpenPseudo : Z := 122.
Definition OP_Close : Z := 123.
Definition OP_ColumnsUsed : Z := 124.
Definition OP_SeekScan : Z := 125.
Definition OP_SeekHit : Z := 126.
Definition OP_Sequence : Z := 127.
Definition OP_NewRowid : Z := 128.
Definition OP_Insert : Z := 129.
Definition OP_RowCell : Z := 130.
Definition OP_Delete : Z := 131.
Definition OP_ResetCount : Z := 132.
Definition OP_SorterCompare : Z := 133.
Definition OP_SorterData : Z := 134.
Definition OP_RowData : Z := 135.
Definition OP_Rowid : Z := 136.
Definition OP_NullRow : Z := 137.
Definition OP_SeekEnd : Z := 138.
Definition OP_IdxInsert : Z := 139.
Definition OP_SorterInsert : Z := 140.
Definition OP_IdxDelete : Z := 141.
Definition OP_DeferredSeek : Z := 142.
Definition OP_IdxRowid : Z := 143.
Definition OP_FinishSeek : Z := 144.
Definition OP_Destroy : Z := 145.
Definition OP_Clear : Z := 146.
Definition OP_ResetSorter : Z := 147.
Definition OP_CreateBtree : Z := 148.
Definition OP_SqlExec : Z := 149.
Definition OP_ParseSchema : Z := 150.
Definition OP_LoadAnalysis : Z := 151.
Definition OP_DropTable : Z := 152.
Definition OP_DropIndex : Z := 153.
Definition OP_Real : Z := 154.
Definition OP_DropTrigger : Z := 155.
Definition OP_IntegrityCk : Z := 156.
Definition OP_RowSetAdd : Z := 157.
Definition OP_Param : Z := 158.
Definition OP_FkCounter : Z := 159.
Definition OP_MemMax : Z := 160.
Definition OP_OffsetLimit : Z := 161.
Definition OP_AggInverse : Z := 162.
Definition OP_AggStep : Z := 163.
Definition OP_AggStep1 : Z := 164.
Definition OP_AggValue : Z := 165.
Definition OP_AggFinal : Z := 166.
Definition OP_Expire : Z := 167.
Definition OP_CursorLock : Z := 168.
Definition OP_CursorUnlock : Z := 169.
Definition OP_TableLock : Z := 170.
Definition OP_VBegin : Z := 171.
Definition OP_VCreate : Z := 172.
Definition OP_VDestroy : Z := 173.
Definition OP_VOpen : Z := 174.
Definition OP_VCheck : Z := 175.
Definition OP_VInitIn : Z := 176.
Definition OP_VColumn : Z := 177.
Definition OP_VRename : Z := 178.
Definition OP_Pagecount : Z := 179.
Definition OP_MaxPgcnt : Z := 180.
Definition OP_ClrSubtype : Z := 181.
Definition OP_GetSubtype : Z := 182.
Definition OP_SetSubtype : Z := 183.
Definition OP_FilterAdd : Z := 184.
Definition OP_Trace : Z := 185.
Definition OP_CursorHint : Z := 186.
Definition OP_ReleaseReg : Z := 187.
Definition OP_Noop : Z := 188.
Definition OP_Explain : Z := 189.
Definition OP_Abortable : Z := 190.

End Opcode.
Export Opcode.

(** One [#define OP_xxx n] line: the name, the number, and the text of the
    comment that follows it when there is one (without the blanks that pad
    it to the column of the closing mark). *)
Record OpcodeDef : Type := mkOpcodeDef {
  op_name : string;
  op_value : Z;
  op_comment : option string
}.

(** The opcode definitions, in the order of the header. *)
Definition opcode_defs : list OpcodeDef :=
  [
    mkOpcodeDef "OP_Savepoint" OP_Savepoint None;
    mkOpcodeDef "OP_AutoCommit" OP_AutoCommit None;
    mkOpcodeDef "OP_Transaction" OP_Transaction None;
    mkOpcodeDef "OP_Checkpoint" OP_Checkpoint None;
    mkOpcodeDef "OP_JournalMode" OP_JournalMode None;
    mkOpcodeDef "OP_Vacuum" OP_Vacuum None;
    mkOpcodeDef "OP_VFilter" OP_VFilter (Some "jump, synopsis: iplan=r[P3] zplan='P4'");
    mkOpcodeDef "OP_VUpdate" OP_VUpdate (Some "synopsis: data=r[P3@P2]");
    mkOpcodeDef "OP_Init" OP_Init (Some "jump0, synopsis: Start at P2");
    mkOpcodeDef "OP_Goto" OP_Goto (Some "jump");
    mkOpcodeDef "OP_Gosub" OP_Gosub (Some "jump");
    mkOpcodeDef "OP_InitCoroutine" OP_InitCoroutine (Some "jump0");
    mkOpcodeDef "OP_Yield" OP_Yield (Some "jump0");
    mkOpcodeDef "OP_MustBeInt" OP_MustBeInt (Some "jump0");
    mkOpcodeDef "OP_Jump" OP_Jump (Some "jump");
    mkOpcodeDef "OP_Once" OP_Once (Some "jump");
    mkOpcodeDef "OP_If" OP_If (Some "jump");
    mkOpcodeDef "OP_IfNot" OP_IfNot (Some "jump");
    mkOpcodeDef "OP_IsType" OP_IsType (Some "jump, synopsis: if typeof(P1.P3) in P5 goto P2");
    mkOpcodeDef "OP_Not" OP_Not (Some "same as TK_NOT, synopsis: r[P2]= !r[P1]");
    mkOpcodeDef "OP_IfNullRow" OP_IfNullRow (Some "jump, synopsis: if P1.nullRow then r[P3]=NULL, goto P2");
    mkOpcodeDef "OP_SeekLT" OP_SeekLT (Some "jump0, synopsis: key=r[P3@P4]");
    mkOpcodeDef "OP_SeekLE" OP_SeekLE (Some "jump0, synopsis: key=r[P3@P4]");
    mkOpcodeDef "OP_SeekGE" OP_SeekGE (Some "jump0, synopsis: key=r[P3@P4]");
    mkOpcodeDef "OP_SeekGT" OP_SeekGT (Some "jump0, synopsis: key=r[P3@P4]");
    mkOpcodeDef "OP_IfNotOpen" OP_IfNotOpen (Some "jump, synopsis: if( !csr[P1] ) goto P2");
    mkOpcodeDef "OP_IfNoHope" OP_IfNoHope (Some "jump, synopsis: key=r[P3@P4]");
    mkOpcodeDef "OP_NoConflict" OP_NoConflict (Some "jump, synopsis: key=r[P3@P4]");
    mkOpcodeDef "OP_NotFound" OP_NotFound (Some "jump, synopsis: key=r[P3@P4]");
    mkOpcodeDef "OP_Found" OP_Found (Some "jump, synopsis: key=r[P3@P4]");
    mkOpcodeDef "OP_SeekRowid" OP_SeekRowid (Some "jump0, synopsis: intkey=r[P3]");
    mkOpcodeDef "OP_NotExists" OP_NotExists (Some "jump, synopsis: intkey=r[P3]");
    mkOpcodeDef "OP_Last" OP_Last (Some "jump0");
    mkOpcodeDef "OP_IfSizeBetween" OP_IfSizeBetween (Some "jump");
    mkOpcodeDef "OP_SorterSort" OP_SorterSort (Some "jump");
    mkOpcodeDef "OP_Sort" OP_Sort (Some "jump");
    mkOpcodeDef "OP_Rewind" OP_Rewind (Some "jump0");
    mkOpcodeDef "OP_IfEmpty" OP_IfEmpty (Some "jump, synopsis: if( empty(P1) ) goto P2");
    mkOpcodeDef "OP_SorterNext" OP_SorterNext (Some "jump");
    mkOpcodeDef "OP_Prev" OP_Prev (Some "jump");
    mkOpcodeDef "OP_Next" OP_Next (Some "jump");
    mkOpcodeDef "OP_IdxLE" OP_IdxLE (Some "jump, synopsis: key=r[P3@P4]");
    mkOpcodeDef "OP_IdxGT" OP_IdxGT (Some "jump, synopsis: key=r[P3@P4]");
    mkOpcodeDef "OP_Or" OP_Or (Some "same as TK_OR, synopsis: r[P3]=(r[P1] || r[P2])");
    mkOpcodeDef "OP_And" OP_And (Some "same as TK_AND, synopsis: r[P3]=(r[P1] && r[P2])");
    mkOpcodeDef "OP_IdxLT" OP_IdxLT (Some "jump, synopsis: key=r[P3@P4]");
    mkOpcodeDef "OP_IdxGE" OP_IdxGE (Some "jump, synopsis: key=r[P3@P4]");
    mkOpcodeDef "OP_RowSetRead" OP_RowSetRead (Some "jump, synopsis: r[P3]=rowset(P1)");
    mkOpcodeDef "OP_RowSetTest" OP_RowSetTest (Some "jump, synopsis: if r[P3] in rowset(P1) goto P2");
    mkOpcodeDef "OP_Program" OP_Program (Some "jump0");
    mkOpcodeDef "OP_FkIfZero" OP_FkIfZero (Some "jump, synopsis: if fkctr[P1]==0 goto P2");
    mkOpcodeDef "OP_IsNull" OP_IsNull (Some "jump, same as TK_ISNULL, synopsis: if r[P1]==NULL goto P2");
    mkOpcodeDef "OP_NotNull" OP_NotNull (Some "jump, same as TK_NOTNULL, synopsis: if r[P1]!=NULL goto P2");
    mkOpcodeDef "OP_Ne" OP_Ne (Some "jump, same as TK_NE, synopsis: IF r[P3]!=r[P1]");
    mkOpcodeDef "OP_Eq" OP_Eq (Some "jump, same as TK_EQ, synopsis: IF r[P3]==r[P1]");
    mkOpcodeDef "OP_Gt" OP_Gt (Some "jump, same as TK_GT, synopsis: IF r[P3]>r[P1]");
    mkOpcodeDef "OP_Le" OP_Le (Some "jump, same as TK_LE, synopsis: IF r[P3]<=r[P1]");
    mkOpcodeDef "OP_Lt" OP_Lt (Some "jump, same as TK_LT, synopsis: IF r[P3]<r[P1]");
    mkOpcodeDef "OP_Ge" OP_Ge (Some "jump, same as TK_GE, synopsis: IF r[P3]>=r[P1]");
    mkOpcodeDef "OP_ElseEq" OP_ElseEq (Some "jump, same as TK_ESCAPE");
    mkOpcodeDef "OP_IfPos" OP_IfPos (Some "jump, synopsis: if r[P1]>0 then r[P1]-=P3, goto P2");
    mkOpcodeDef "OP_IfNotZero" OP_IfNotZero (Some "jump, synopsis: if r[P1]!=0 then r[P1]--, goto P2");
    mkOpcodeDef "OP_DecrJumpZero" OP_DecrJumpZero (Some "jump, synopsis: if (--r[P1])==0 goto P2");
    mkOpcodeDef "OP_IncrVacuum" OP_IncrVacuum (Some "jump");
    mkOpcodeDef "OP_VNext" OP_VNext (Some "jump");
    mkOpcodeDef "OP_Filter" OP_Filter (Some "jump, synopsis: if key(P3@P4) not in filter(P1) goto P2");
    mkOpcodeDef "OP_PureFunc" OP_PureFunc (Some "synopsis: r[P3]=func(r[P2@NP])");
    mkOpcodeDef "OP_Function" OP_Function (Some "synopsis: r[P3]=func(r[P2@NP])");
    mkOpcodeDef "OP_Return" OP_Return None;
    mkOpcodeDef "OP_EndCoroutine" OP_EndCoroutine None;
    mkOpcodeDef "OP_HaltIfNull" OP_HaltIfNull (Some "synopsis: if r[P3]=null halt");
    mkOpcodeDef "OP_Halt" OP_Halt None;
    mkOpcodeDef "OP_Integer" OP_Integer (Some "synopsis: r[P2]=P1");
    mkOpcodeDef "OP_Int64" OP_Int64 (Some "synopsis: r[P2]=P4");
    mkOpcodeDef "OP_String" OP_String (Some "synopsis: r[P2]='P4' (len=P1)");
    mkOpcodeDef "OP_BeginSubrtn" OP_BeginSubrtn (Some "synopsis: r[P2]=NULL");
    mkOpcodeDef "OP_Null" OP_Null (Some "synopsis: r[P2..P3]=NULL");
    mkOpcodeDef "OP_SoftNull" OP_SoftNull (Some "synopsis: r[P1]=NULL");
    mkOpcodeDef "OP_Blob" OP_Blob (Some "synopsis: r[P2]=P4 (len=P1)");
    mkOpcodeDef "OP_Variable" OP_Variable (Some "synopsis: r[P2]=parameter(P1)");
    mkOpcodeDef "OP_Move" OP_Move (Some "synopsis: r[P2@P3]=r[P1@P3]");
    mkOpcodeDef "OP_Copy" OP_Copy (Some "synopsis: r[P2@P3+1]=r[P1@P3+1]");
    mkOpcodeDef "OP_SCopy" OP_SCopy (Some "synopsis: r[P2]=r[P1]");
    mkOpcodeDef "OP_IntCopy" OP_IntCopy (Some "synopsis: r[P2]=r[P1]");
    mkOpcodeDef "OP_FkCheck" OP_FkCheck None;
    mkOpcodeDef "OP_ResultRow" OP_ResultRow (Some "synopsis: output=r[P1@P2]");
    mkOpcodeDef "OP_CollSeq" OP_CollSeq None;
    mkOpcodeDef "OP_AddImm" OP_AddImm (Some "synopsis: r[P1]=r[P1]+P2");
    mkOpcodeDef "OP_RealAffinity" OP_RealAffinity None;
    mkOpcodeDef "OP_Cast" OP_Cast (Some "synopsis: affinity(r[P1])");
    mkOpcodeDef "OP_Permutation" OP_Permutation None;
    mkOpcodeDef "OP_Compare" OP_Compare (Some "synopsis: r[P1@P3] <-> r[P2@P3]");
    mkOpcodeDef "OP_IsTrue" OP_IsTrue (Some "synopsis: r[P2] = coalesce(r[P1]==TRUE,P3) ^ P4");
    mkOpcodeDef "OP_ZeroOrNull" OP_ZeroOrNull (Some "synopsis: r[P2] = 0 OR NULL");
    mkOpcodeDef "OP_Offset" OP_Offset (Some "synopsis: r[P3] = sqlite_offset(P1)");
    mkOpcodeDef "OP_Column" OP_Column (Some "synopsis: r[P3]=PX cursor P1 column P2");
    mkOpcodeDef "OP_TypeCheck" OP_TypeCheck (Some "synopsis: typecheck(r[P1@P2])");
    mkOpcodeDef "OP_Affinity" OP_Affinity (Some "synopsis: affinity(r[P1@P2])");
    mkOpcodeDef "OP_MakeRecord" OP_MakeRecord (Some "synopsis: r[P3]=mkrec(r[P1@P2])");
    mkOpcodeDef "OP_Count" OP_Count (Some "synopsis: r[P2]=count()");
    mkOpcodeDef "OP_ReadCookie" OP_ReadCookie None;
    mkOpcodeDef "OP_SetCookie" OP_SetCookie None;
    mkOpcodeDef "OP_ReopenIdx" OP_ReopenIdx (Some "synopsis: root=P2 iDb=P3");
    mkOpcodeDef "OP_BitAnd" OP_BitAnd (Some "same as TK_BITAND, synopsis: r[P3]=r[P1]&r[P2]");
    mkOpcodeDef "OP_BitOr" OP_BitOr (Some "same as TK_BITOR, synopsis: r[P3]=r[P1]|r[P2]");
    mkOpcodeDef "OP_ShiftLeft" OP_ShiftLeft (Some "same as TK_LSHIFT, synopsis: r[P3]=r[P2]<<r[P1]");
    mkOpcodeDef "OP_ShiftRight" OP_ShiftRight (Some "same as TK_RSHIFT, synopsis: r[P3]=r[P2]>>r[P1]");
    mkOpcodeDef "OP_Add" OP_Add (Some "same as TK_PLUS, synopsis: r[P3]=r[P1]+r[P2]");
    mkOpcodeDef "OP_Subtract" OP_Subtract (Some "same as TK_MINUS, synopsis: r[P3]=r[P2]-r[P1]");
    mkOpcodeDef "OP_Multiply" OP_Multiply (Some "same as TK_STAR, synopsis: r[P3]=r[P1]*r[P2]");
    mkOpcodeDef "OP_Divide" OP_Divide (Some "same as TK_SLASH, synopsis: r[P3]=r[P2]/r[P1]");
    mkOpcodeDef "OP_Remainder" OP_Remainder (Some "same as TK_REM, synopsis: r[P3]=r[P2]%r[P1]");
    mkOpcodeDef "OP_Concat" OP_Concat (Some "same as TK_CONCAT, synopsis: r[P3]=r[P2]+r[P1]");
    mkOpcodeDef "OP_OpenRead" OP_OpenRead (Some "synopsis: root=P2 iDb=P3");
    mkOpcodeDef "OP_OpenWrite" OP_OpenWrite (Some "synopsis: root=P2 iDb=P3");
    mkOpcodeDef "OP_BitNot" OP_BitNot (Some "same as TK_BITNOT, synopsis: r[P2]= ~r[P1]");
    mkOpcodeDef "OP_OpenDup" OP_OpenDup None;
    mkOpcodeDef "OP_OpenAutoindex" OP_OpenAutoindex (Some "synopsis: nColumn=P2");
    mkOpcodeDef "OP_String8" OP_String8 (Some "same as TK_STRING, synopsis: r[P2]='P4'");
    mkOpcodeDef "OP_OpenEphemeral" OP_OpenEphemeral (Some "synopsis: nColumn=P2");
    mkOpcodeDef "OP_SorterOpen" OP_SorterOpen None;
    mkOpcodeDef "OP_SequenceTest" OP_SequenceTest (Some "synopsis: if( cursor[P1].ctr++ ) pc = P2");
    mkOpcodeDef "OP_OpenPseudo" OP_OpenPseudo (Some "synopsis: P3 columns in r[P2]");
    mkOpcodeDef "OP_Close" OP_Close None;
    mkOpcodeDef "OP_ColumnsUsed" OP_ColumnsUsed None;
    mkOpcodeDef "OP_SeekScan" OP_SeekScan (Some "synopsis: Scan-ahead up to P1 rows");
    mkOpcodeDef "OP_SeekHit" OP_SeekHit (Some "synopsis: set P2<=seekHit<=P3");
    mkOpcodeDef "OP_Sequence" OP_Sequence (Some "synopsis: r[P2]=cursor[P1].ctr++");
    mkOpcodeDef "OP_NewRowid" OP_NewRowid (Some "synopsis: r[P2]=rowid");
    mkOpcodeDef "OP_Insert" OP_Insert (Some "synopsis: intkey=r[P3] data=r[P2]");
    mkOpcodeDef "OP_RowCell" OP_RowCell None;
    mkOpcodeDef "OP_Delete" OP_Delete None;
    mkOpcodeDef "OP_ResetCount" OP_ResetCount None;
    mkOpcodeDef "OP_SorterCompare" OP_SorterCompare (Some "synopsis: if key(P1)!=trim(r[P3],P4) goto P2");
    mkOpcodeDef "OP_SorterData" OP_SorterData (Some "synopsis: r[P2]=data");
    mkOpcodeDef "OP_RowData" OP_RowData (Some "synopsis: r[P2]=data");
    mkOpcodeDef "OP_Rowid" OP_Rowid (Some "synopsis: r[P2]=PX rowid of P1");
    mkOpcodeDef "OP_NullRow" OP_NullRow None;
    mkOpcodeDef "OP_SeekEnd" OP_SeekEnd None;
    mkOpcodeDef "OP_IdxInsert" OP_IdxInsert (Some "synopsis: key=r[P2]");
    mkOpcodeDef "OP_SorterInsert" OP_SorterInsert (Some "synopsis: key=r[P2]");
    mkOpcodeDef "OP_IdxDelete" OP_IdxDelete (Some "synopsis: key=r[P2@P3]");
    mkOpcodeDef "OP_DeferredSeek" OP_DeferredSeek (Some "synopsis: Move P3 to P1.rowid if needed");
    mkOpcodeDef "OP_IdxRowid" OP_IdxRowid (Some "synopsis: r[P2]=rowid");
    mkOpcodeDef "OP_FinishSeek" OP_FinishSeek None;
    mkOpcodeDef "OP_Destroy" OP_Destroy None;
    mkOpcodeDef "OP_Clear" OP_Clear None;
    mkOpcodeDef "OP_ResetSorter" OP_ResetSorter None;
    mkOpcodeDef "OP_CreateBtree" OP_CreateBtree (Some "synopsis: r[P2]=root iDb=P1 flags=P3");
    mkOpcodeDef "OP_SqlExec" OP_SqlExec None;
    mkOpcodeDef "OP_ParseSchema" OP_ParseSchema None;
    mkOpcodeDef "OP_LoadAnalysis" OP_LoadAnalysis None;
    mkOpcodeDef "OP_DropTable" OP_DropTable None;
    mkOpcodeDef "OP_DropIndex" OP_DropIndex None;
    mkOpcodeDef "OP_Real" OP_Real (Some "same as TK_FLOAT, synopsis: r[P2]=P4");
    mkOpcodeDef "OP_DropTrigger" OP_DropTrigger None;
    mkOpcodeDef "OP_IntegrityCk" OP_IntegrityCk None;
    mkOpcodeDef "OP_RowSetAdd" OP_RowSetAdd (Some "synopsis: rowset(P1)=r[P2]");
    mkOpcodeDef "OP_Param" OP_Param None;
    mkOpcodeDef "OP_FkCounter" OP_FkCounter (Some "synopsis: fkctr[P1]+=P2");
    mkOpcodeDef "OP_MemMax" OP_MemMax (Some "synopsis: r[P1]=max(r[P1],r[P2])");
    mkOpcodeDef "OP_OffsetLimit" OP_OffsetLimit (Some "synopsis: if r[P1]>0 then r[P2]=r[P1]+max(0,r[P3]) else r[P2]=(-1)");
    mkOpcodeDef "OP_AggInverse" OP_AggInverse (Some "synopsis: accum=r[P3] inverse(r[P2@P5])");
    mkOpcodeDef "OP_AggStep" OP_AggStep (Some "synopsis: accum=r[P3] step(r[P2@P5])");
    mkOpcodeDef "OP_AggStep1" OP_AggStep1 (Some "synopsis: accum=r[P3] step(r[P2@P5])");
    mkOpcodeDef "OP_AggValue" OP_AggValue (Some "synopsis: r[P3]=value N=P2");
    mkOpcodeDef "OP_AggFinal" OP_AggFinal (Some "synopsis: accum=r[P1] N=P2");
    mkOpcodeDef "OP_Expire" OP_Expire None;
    mkOpcodeDef "OP_CursorLock" OP_CursorLock None;
    mkOpcodeDef "OP_CursorUnlock" OP_CursorUnlock None;
    mkOpcodeDef "OP_TableLock" OP_TableLock (Some "synopsis: iDb=P1 root=P2 write=P3");
    mkOpcodeDef "OP_VBegin" OP_VBegin None;
    mkOpcodeDef "OP_VCreate" OP_VCreate None;
    mkOpcodeDef "OP_VDestroy" OP_VDestroy None;
    mkOpcodeDef "OP_VOpen" OP_VOpen None;
    mkOpcodeDef "OP_VCheck" OP_VCheck None;
    mkOpcodeDef "OP_VInitIn" OP_VInitIn (Some "synopsis: r[P2]=ValueList(P1,P3)");
    mkOpcodeDef "OP_VColumn" OP_VColumn (Some "synopsis: r[P3]=vcolumn(P2)");
    mkOpcodeDef "OP_VRename" OP_VRename None;
    mkOpcodeDef "OP_Pagecount" OP_Pagecount None;
    mkOpcodeDef "OP_MaxPgcnt" OP_MaxPgcnt None;
    mkOpcodeDef "OP_ClrSubtype" OP_ClrSubtype (Some "synopsis: r[P1].subtype = 0");
    mkOpcodeDef "OP_GetSubtype" OP_GetSubtype (Some "synopsis: r[P2] = r[P1].subtype");
    mkOpcodeDef "OP_SetSubtype" OP_SetSubtype (Some "synopsis: r[P2].subtype = r[P1]");
    mkOpcodeDef "OP_FilterAdd" OP_FilterAdd (Some "synopsis: filter(P1) += key(P3@P4)");
    mkOpcodeDef "OP_Trace" OP_Trace None;
    mkOpcodeDef "OP_CursorHint" OP_CursorHint None;
    mkOpcodeDef "OP_ReleaseReg" OP_ReleaseReg (Some "synopsis: release r[P1@P2] mask P3");
    mkOpcodeDef "OP_Noop" OP_Noop None;
    mkOpcodeDef "OP_Explain" OP_Explain None;
    mkOpcodeDef "OP_Abortable" OP_Abortable None
  ].

(** ** Operand-role flags *)

Definition OPFLG_JUMP : Z := 0x01.   (* jump:  P2 holds jmp target *)
Definition OPFLG_IN1 : Z := 0x02.    (* in1:   P1 is an input *)
Definition OPFLG_IN2 : Z := 0x04.    (* in2:   P2 is an input *)
Definition OPFLG_IN3 : Z := 0x08.    (* in3:   P3 is an input *)
Definition OPFLG_OUT2 : Z := 0x10.   (* out2:  P2 is an output *)
Definition OPFLG_OUT3 : Z := 0x20.   (* out3:  P3 is an output *)
Definition OPFLG_NCYCLE : Z := 0x40. (* ncycle:Cycles count against P1 *)
Definition OPFLG_JUMP0 : Z := 0x80.  (* jump0:  P2 might be zero *)

Definition OPFLG_INITIALIZER : list Z :=
  [
    (*   0 *) 0x00; 0x00; 0x00; 0x00; 0x10; 0x00; 0x41; 0x00;
    (*   8 *) 0x81; 0x01; 0x01; 0x81; 0x83; 0x83; 0x01; 0x01;
    (*  16 *) 0x03; 0x03; 0x01; 0x12; 0x01; 0xc9; 0xc9; 0xc9;
    (*  24 *) 0xc9; 0x01; 0x49; 0x49; 0x49; 0x49; 0xc9; 0x49;
    (*  32 *) 0xc1; 0x01; 0x41; 0x41; 0xc1; 0x01; 0x01; 0x41;
    (*  40 *) 0x41; 0x41; 0x41; 0x26; 0x26; 0x41; 0x41; 0x23;
    (*  48 *) 0x0b; 0x81; 0x01; 0x03; 0x03; 0x0b; 0x0b; 0x0b;
    (*  56 *) 0x0b; 0x0b; 0x0b; 0x01; 0x03; 0x03; 0x03; 0x01;
    (*  64 *) 0x41; 0x01; 0x00; 0x00; 0x02; 0x02; 0x08; 0x00;
    (*  72 *) 0x10; 0x10; 0x10; 0x00; 0x10; 0x00; 0x10; 0x10;
    (*  80 *) 0x00; 0x00; 0x10; 0x10; 0x00; 0x00; 0x00; 0x02;
    (*  88 *) 0x02; 0x02; 0x00; 0x00; 0x12; 0x1e; 0x20; 0x40;
    (*  96 *) 0x00; 0x00; 0x00; 0x10; 0x10; 0x00; 0x40; 0x26;
    (* 104 *) 0x26; 0x26; 0x26; 0x26; 0x26; 0x26; 0x26; 0x26;
    (* 112 *) 0x26; 0x40; 0x00; 0x12; 0x40; 0x40; 0x10; 0x40;
    (* 120 *) 0x00; 0x00; 0x00; 0x40; 0x00; 0x40; 0x40; 0x10;
    (* 128 *) 0x10; 0x00; 0x00; 0x00; 0x00; 0x00; 0x40; 0x00;
    (* 136 *) 0x50; 0x00; 0x40; 0x04; 0x04; 0x00; 0x40; 0x50;
    (* 144 *) 0x40; 0x10; 0x00; 0x00; 0x10; 0x00; 0x00; 0x00;
    (* 152 *) 0x00; 0x00; 0x10; 0x00; 0x00; 0x06; 0x10; 0x00;
    (* 160 *) 0x04; 0x1a; 0x00; 0x00; 0x00; 0x00; 0x00; 0x00;
    (* 168 *) 0x00; 0x00; 0x00; 0x00; 0x00; 0x00; 0x40; 0x10;
    (* 176 *) 0x50; 0x40; 0x00; 0x10; 0x10; 0x02; 0x12; 0x12;
    (* 184 *) 0x00; 0x00; 0x00; 0x00; 0x00; 0x00; 0x00
  ].

(** The resolution of P2 operands runs faster when it knows the largest
    JUMP opcode. *)
Definition SQLITE_MX_JUMP_OPCODE : Z := 65. (* Maximum JUMP opcode *)

(** [sqlite3OpcodeProperty[op]]: the flag byte of opcode [op].  The array is
    initialised with [OPFLG_INITIALIZER] and has one entry per opcode; an
    index outside of the initialiser has no entry. *)
Definition sqlite3OpcodeProperty (op : Z) : option Z :=
  if 0 <=? op then OPFLG_INITIALIZER !! Z.to_nat op else None.

(** The test [(f & flag) != 0] of one flag in a flag byte. *)
Definition flag_set (f flag : Z) : bool := negb (Z.land f flag =? 0).

(** A check of every entry of a table together with its index, the first
    entry having index [i]. *)
Fixpoint table_all (P : Z -> Z -> bool) (i : Z) (l : list Z) : bool :=
  match l with
  | [] => true
  | f :: l' => P i f && table_all P (i + 1) l'
  end.

(** The largest index of a table whose entry has the flag [flag], the first
    entry having index [i]; [acc] when there is none. *)
Fixpoint max_flagged (flag : Z) (i : Z) (l : list Z) (acc : Z) : Z :=
  match l with
  | [] => acc
  | f :: l' =>
      max_flagged flag (i + 1) l' (if flag_set f flag then Z.max acc i else acc)
  end.

(** The largest opcode flagged as a jump, computed from the table. *)
Definition max_jump_opcode : Z :=
  max_flagged OPFLG_JUMP 0 OPFLG_INITIALIZER (-1).

(** ** The flag legend and the operand roles *)

(** The legend of the header: the property named in the comment of each
    [OPFLG_xxx] line ("jump:", "in1:", ...) with the bit that encodes it, in
    the order of the header. *)
Definition OPFLG_legend : list (string * Z) :=
  [ ("jump", OPFLG_JUMP); ("in1", OPFLG_IN1); ("in2", OPFLG_IN2);
    ("in3", OPFLG_IN3); ("out2", OPFLG_OUT2); ("out3", OPFLG_OUT3);
    ("ncycle", OPFLG_NCYCLE); ("jump0", OPFLG_JUMP0) ].

(** The roles an operand-role flag can declare. *)
Inductive OperandRole : Type :=
  | IsJump
  | Input1
  | Input2
  | Input3
  | Output2
  | Output3
  | CountsAgainstCursorP1
  | JumpTargetMayBeZero.

Definition all_roles : list OperandRole :=
  [ IsJump; Input1; Input2; Input3; Output2; Output3;
    CountsAgainstCursorP1; JumpTargetMayBeZero ].

(** The bit of a role. *)
Definition role_flag (r : OperandRole) : Z :=
  match r with
  | IsJump => OPFLG_JUMP
  | Input1 => OPFLG_IN1
  | Input2 => OPFLG_IN2
  | Input3 => OPFLG_IN3
  | Output2 => OPFLG_OUT2
  | Output3 => OPFLG_OUT3
  | CountsAgainstCursorP1 => OPFLG_NCYCLE
  | JumpTargetMayBeZero => OPFLG_JUMP0
  end.

(** The bitwise or of a list of flags. *)
Definition flags_union (l : list Z) : Z := fold_right Z.lor 0 l.

(** The three operand slots that can hold a register number. *)
Inductive Operand : Type := P1 | P2 | P3.

(** The operands a flag byte declares as inputs, and as outputs. *)
Definition declared_inputs (f : Z) : list Operand :=
  (if flag_set f OPFLG_IN1 then [P1] else []) ++
  (if flag_set f OPFLG_IN2 then [P2] else []) ++
  (if flag_set f OPFLG_IN3 then [P3] else []).

Definition declared_outputs (f : Z) : list Operand :=
  (if flag_set f OPFLG_OUT2 then [P2] else []) ++
  (if flag_set f OPFLG_OUT3 then [P3] else []).

(** A flag byte describes a binary operation: two registers are read and one
    is written. *)
Definition binary_in_out (f : Z) : Prop :=
  length (declared_inputs f) = 2%nat /\ length (declared_outputs f) = 1%nat.

(** ** Opcode families *)

Definition comparison_family : list Z :=
  [ OP_Ne; OP_Eq; OP_Gt; OP_Le; OP_Lt; OP_Ge ].

Definition arithmetic_family : list Z :=
  [ OP_BitAnd; OP_BitOr; OP_ShiftLeft; OP_ShiftRight; OP_Add; OP_Subtract;
    OP_Multiply; OP_Divide; OP_Remainder; OP_Concat ].

(** ** Annotations in the comments of the opcodes *)

(** The comment of an opcode is a list of fields separated by commas:
    properties such as "jump" first, then "same as TK_xxx" and the synopsis
    when there are any. *)
Fixpoint split_on (sep : ascii) (s : list ascii) : list (list ascii) :=
  match s with
  | [] => [[]]
  | c :: s' =>
      if Ascii.eqb c sep then [] :: split_on sep s'
      else match split_on sep s' with
           | [] => [[c]]
           | w :: ws => (c :: w) :: ws
           end
  end.

Fixpoint drop_blanks (s : list ascii) : list ascii :=
  match s with
  | [] => []
  | c :: s' => if Ascii.eqb c " " then drop_blanks s' else s
  end.

Definition strip (s : list ascii) : list ascii :=
  rev (drop_blanks (rev (drop_blanks s))).

Definition annotations (c : option string) : list string :=
  match c with
  | None => []
  | Some t =>
      map (fun w => string_of_list_ascii (strip w))
          (split_on "," (list_ascii_of_string t))
  end.

(** The comment of [d] has the annotation [a] as one of its fields. *)
Definition carries (a : string) (d : OpcodeDef) : bool :=
  existsb (String.eqb a) (annotations (op_comment d)).

(** The jump bits as the annotations alone give them: "jump" and "jump0" both
    say that P2 is a jump target, "jump0" says moreover that it may be 0. *)
Definition jump_bits_of_annotations (d : OpcodeDef) : Z :=
  Z.lor (if carries "jump" d || carries "jump0" d then OPFLG_JUMP else 0)
        (if carries "jump0" d then OPFLG_JUMP0 else 0).

(** The agreement of one opcode definition with its entry [f] of the table,
    as a check. *)
Definition annotation_check (d : OpcodeDef) : bool :=
  match sqlite3OpcodeProperty (op_value d) with
  | None => false
  | Some f =>
      Bool.eqb (flag_set f OPFLG_JUMP) (carries "jump" d || carries "jump0" d)
      && Bool.eqb (flag_set f OPFLG_JUMP0) (carries "jump0" d)
      && (Z.land f (Z.lor OPFLG_JUMP OPFLG_JUMP0) =? jump_bits_of_annotations d)
  end.

(** ** Instructions and the resolution of P2 operands *)

(** Modelled from the spec: the out-of-band constant of an instruction (a
    string, a blob, a coefficient table or a sub-program pointer); its C
    declaration is in vdbe.h, which is not part of this development. *)
Inductive Literal : Type :=
  | LitString (s : string)
  | LitBlob (bytes : list Byte.byte)
  | LitCoefficients (coeffs : list Z)
  | LitSubProgram (entry : nat).

(** Modelled from the spec: an instruction, an opcode with its operands
    (struct VdbeOp of vdbe.h, not part of this development). *)
Record Instruction : Type := mkInstruction {
  opcode : Z;
  p1 : Z;
  p2 : Z;
  p3 : Z;
  p4 : option Literal;
  p5 : Z
}.

(** Modelled from the spec: what the resolution pass records about the P2
    operand of an instruction (the annotation of spec 4.1; vdbeaux.c is not
    part of this development). *)
Inductive P2Role : Type :=
  | P2NotJump                (* P2 is no jump target *)
  | P2FallThrough            (* a jump whose target 0 means: no jump *)
  | P2Target (addr : Z).     (* a jump to the instruction at [addr] *)

(** Modelled from the spec: the resolution of one instruction of a program of
    [nOp] instructions (resolveP2Values of vdbeaux.c, not part of this
    development).  Opcodes above [SQLITE_MX_JUMP_OPCODE] are skipped without a
    look at the flag table.  A jump opcode needs a P2 in [0, nOp), except that
    an opcode flagged [OPFLG_JUMP0] may have P2 = 0, which then stands for
    "no jump".  [None] is the fatal error of an out-of-range target. *)
Definition resolveP2 (nOp : Z) (op : Instruction) : option P2Role :=
  if opcode op <=? SQLITE_MX_JUMP_OPCODE then
    match sqlite3OpcodeProperty (opcode op) with
    | None => Some P2NotJump
    | Some f =>
        if flag_set f OPFLG_JUMP then
          if flag_set f OPFLG_JUMP0 && (p2 op =? 0) then Some P2FallThrough
          else if (0 <=? p2 op) && (p2 op <? nOp) then Some (P2Target (p2 op))
          else None
        else Some P2NotJump
    end
  else Some P2NotJump.

(** The same check without the short cut of the bound. *)
Definition resolveP2_unbounded (nOp : Z) (op : Instruction) : option P2Role :=
  match sqlite3OpcodeProperty (opcode op) with
  | None => Some P2NotJump
  | Some f =>
      if flag_set f OPFLG_JUMP then
        if flag_set f OPFLG_JUMP0 && (p2 op =? 0) then Some P2FallThrough
        else if (0 <=? p2 op) && (p2 op <? nOp) then Some (P2Target (p2 op))
        else None
      else Some P2NotJump
  end.

(** The register number an instruction holds in an operand slot. *)
Definition operand (op : Instruction) (o : Operand) : Z :=
  match o with
  | P1 => p1 op
  | P2 => p2 op
  | P3 => p3 op
  end.

(** The registers an instruction reads and the register it writes, as the
    flag table declares them for its opcode. *)
Definition input_registers (op : Instruction) : list Z :=
  match sqlite3OpcodeProperty (opcode op) with
  | None => []
  | Some f => map (operand op) (declared_inputs f)
  end.

Definition output_register (op : Instruction) : option Z :=
  match sqlite3OpcodeProperty (opcode op) with
  | None => None
  | Some f => head (map (operand op) (declared_outputs f))
  end.

(** Every register the flag table declares for an instruction, inputs
    first. *)
Definition declared_registers (op : Instruction) : list Z :=
  match sqlite3OpcodeProperty (opcode op) with
  | None => []
  | Some f => map (operand op) (declared_inputs f ++ declared_outputs f)
  end.

(** Modelled from the spec: a program as it is handed over (spec 6): the
    instructions in order, the declared register count and the declared
    cursor count (struct Vdbe of vdbeInt.h, not part of this development). *)
Record Program : Type := mkProgram {
  prog_ops : list Instruction;
  prog_nRegisters : Z;
  prog_nCursors : Z
}.

(** Modelled from the spec: the two program-construction errors of spec
    7 (a) (the error path of vdbeaux.c is not part of this development): the
    jump target of the instruction at [addr] is out of range, or the
    instruction at [addr] names a register beyond the declared register
    count. *)
Inductive LoadError : Type :=
  | InvalidJumpTarget (addr : nat)
  | RegisterCountOverflow (addr : nat).

(** Modelled from the spec: the register file grows up to the declared
    register count, so a register number [r] overflows a count of [nReg]
    registers when [nReg <= r]. *)
Definition register_overflows (nReg r : Z) : bool := nReg <=? r.

(** No register declared for the instruction overflows the count. *)
Definition registers_within (nReg : Z) (op : Instruction) : bool :=
  forallb (fun r => negb (register_overflows nReg r)) (declared_registers op).

(** Modelled from the spec: the pass over the instructions from address
    [addr] on (the loop of resolveP2Values); the first instruction with an
    invalid jump target or a register beyond the count stops it. *)
Fixpoint resolve_from (nOp nReg : Z) (addr : nat) (ops : list Instruction)
  : LoadError + list P2Role :=
  match ops with
  | [] => inr []
  | op :: rest =>
      match resolveP2 nOp op with
      | None => inl (InvalidJumpTarget addr)
      | Some r =>
          if registers_within nReg op then
            match resolve_from nOp nReg (S addr) rest with
            | inl e => inl e
            | inr rs => inr (r :: rs)
            end
          else inl (RegisterCountOverflow addr)
      end
  end.

(** Modelled from the spec: the resolution pass over a whole program. *)
Definition resolveP2Values (prog : Program) : LoadError + list P2Role :=
  resolve_from (Z.of_nat (length (prog_ops prog))) (prog_nRegisters prog)
               0 (prog_ops prog).

Definition accepted (prog : Program) : bool :=
  match resolveP2Values prog with
  | inl _ => false
  | inr _ => true
  end.

(** The condition of the spec on one instruction of a program of [nOp]
    instructions. *)
Definition jump_target_ok (nOp : Z) (op : Instruction) : Prop :=
  forall f, sqlite3OpcodeProperty (opcode op) = Some f ->
    Z.land f OPFLG_JUMP <> 0 ->
    0 <= p2 op < nOp \/ (Z.land f OPFLG_JUMP0 <> 0 /\ p2 op = 0).

(** The instruction stays within a register count of [nReg]: every register
    the flag table declares for it is below the count. *)
Definition registers_ok (nReg : Z) (op : Instruction) : Prop :=
  forall r, In r (declared_registers op) -> r < nReg.

(** A program without register-count overflow. *)
Definition no_register_overflow (prog : Program) : Prop :=
  Forall (registers_ok (prog_nRegisters prog)) (prog_ops prog).

(** Every jump target of a program is valid. *)
Definition jump_targets_valid (prog : Program) : Prop :=
  Forall (jump_target_ok (Z.of_nat (length (prog_ops prog)))) (prog_ops prog).

(** Acceptance read as depending on the jump targets alone, for every
    program. *)
Definition accepts_iff_jump_targets_valid : Prop :=
  forall prog : Program, accepted prog = true <-> jump_targets_valid prog.

(** Modelled from the spec: how a run ends (ok, constraint violation,
    aborted, fatal I/O), or that the program was refused when it was
    loaded. *)
Inductive HaltStatus : Type :=
  | HaltOk
  | HaltConstraint
  | HaltAborted
  | HaltFatalIO
  | HaltNotLoaded (e : LoadError).

(** Modelled from the spec: a run of the interpreter loop (vdbe.c, not part
    of this development), as the addresses of the instructions executed, in
    order, and the status at the end. *)
Record Run : Type := mkRun {
  run_executed : list nat;
  run_status : HaltStatus
}.

(** Modelled from the spec: a program is resolved, then interpreted; the
    interpreter loop [interp] (vdbe.c, not part of this development) gets the
    program with the roles of its P2 operands.  A program that is refused is
    never handed to it. *)
Definition run_program
    (interp : list (Instruction * P2Role) -> Run) (prog : Program) : Run :=
  match resolveP2Values prog with
  | inl e => mkRun [] (HaltNotLoaded e)
  | inr roles => interp (zip (prog_ops prog) roles)
  end.

(** ** Registers and binary operations *)

(** Modelled from the spec: the value of a register (struct Mem of
    vdbeInt.h, not part of this development).  A real is kept as the 64 bits
    of its double. *)
Inductive Value : Type :=
  | Null
  | Integer (i : Z)
  | Real (bits : Z)
  | Text (bytes : list Byte.byte) (encoding : Z)
  | Blob (bytes : list Byte.byte)
  | RowSet (keys : list Z).

(** Modelled from the spec: a register, a value and its subtype tag (struct
    Mem of vdbeInt.h). *)
Record Register : Type := mkRegister {
  reg_value : Value;
  reg_subtype : Z
}.

Definition is_null (v : Value) : bool :=
  match v with
  | Null => true
  | _ => false
  end.

(** Modelled from the spec: the register file.  A register that was never
    written reads as Null; a write replaces the value and clears the
    subtype. *)
Definition read (rf : gmap Z Register) (r : Z) : Register :=
  default (mkRegister Null 0) (rf !! r).

Definition write (rf : gmap Z Register) (r : Z) (v : Value) : gmap Z Register :=
  <[r := mkRegister v 0]> rf.

(** Modelled from the spec: the result of a binary operation.  [compute] is
    what the opcode yields on two values that are not Null (the arithmetic or
    the comparison itself, with its coercions, is in vdbe.c, which is not
    part of this development); a Null operand makes the result Null. *)
Definition binary_result
    (compute : Z -> Value -> Value -> Value) (opc : Z) (a b : Value) : Value :=
  if is_null a || is_null b then Null else compute opc a b.

(** Modelled from the spec: the effect on the register file of one binary
    operation, an instruction whose flags declare two input registers and
    one output register: it reads the two inputs and writes the result to
    the output.  An instruction whose flags do not declare two inputs and
    one output is no such operation; what it does is in vdbe.c and is not
    described here ([None]). *)
Definition exec_binary
    (compute : Z -> Value -> Value -> Value)
    (rf : gmap Z Register) (op : Instruction) : option (gmap Z Register) :=
  match input_registers op, output_register op with
  | [ra; rb], Some ro =>
      Some (write rf ro
              (binary_result compute (opcode op)
                 (reg_value (read rf ra)) (reg_value (read rf rb))))
  | _, _ => None
  end.

(** A Null in one of the registers an instruction reads. *)
Definition null_input (rf : gmap Z Register) (op : Instruction) : Prop :=
  exists r, In r (input_registers op) /\ reg_value (read rf r) = Null.

(** NULL propagation for the opcode [opc]: whenever a register read by an
    instruction of this opcode holds Null, the instruction has an output
    register, it is executed as a binary operation, and that register holds
    Null afterwards. *)
Definition null_propagates
    (compute : Z -> Value -> Value -> Value) (opc : Z) : Prop :=
  forall (rf : gmap Z Register) (op : Instruction),
    opcode op = opc ->
    null_input rf op ->
    exists ro rf', output_register op = Some ro /\
                   exec_binary compute rf op = Some rf' /\
                   reg_value (read rf' ro) = Null.
(** The two families read as binary operations with a register result:
    every opcode of the comparison and arithmetic families has an entry that
    declares two inputs and one output. *)
Definition families_binary_in_out : Prop :=
  forall opc, In opc (comparison_family ++ arithmetic_family) ->
    exists f, sqlite3OpcodeProperty opc = Some f /\ binary_in_out f.

(** NULL propagation read for both families. *)
Definition families_null_propagate : Prop :=
  forall (compute : Z -> Value -> Value -> Value) (opc : Z),
    In opc (arithmetic_family ++ comparison_family) ->
    null_propagates compute opc.

(** ** Decoding flag bytes, and reading the comments further *)

(** The roles a flag byte declares: those whose test [(f & flag) != 0]
    succeeds, in the order of the legend. *)
Definition roles_of (f : Z) : list OperandRole :=
  List.filter (fun r => flag_set f (role_flag r)) all_roles.

(** The flag byte that declares the roles [rs]: the bitwise or of their
    flags, as the entries of the table are built. *)
Definition flags_of_roles (rs : list OperandRole) : Z :=
  flags_union (map role_flag rs).

(** The comment of [d] says that the opcode has the number of a token of the
    parser: it has a field "same as TK_xxx". *)
Definition same_as_token (d : OpcodeDef) : bool :=
  existsb (String.prefix "same as TK_") (annotations (op_comment d)).

(** The synopsis of an opcode: the text of its comment after "synopsis: ",
    commas included. *)
Definition synopsis (d : OpcodeDef) : option string :=
  match op_comment d with
  | None => None
  | Some t =>
      match String.index 0 "synopsis: " t with
      | None => None
      | Some n =>
          Some (String.substring (n + 10) (String.length t - (n + 10)) t)
      end
  end.

(** The value a name is defined as: the first [#define] line of that name. *)
Definition opcode_of_name (name : string) : option Z :=
  option_map op_value
    (List.find (fun d => String.eqb (op_name d) name) opcode_defs).

(** The name defined with the value [v]: the first [#define] line of that
    value. *)
Definition name_of_opcode (v : Z) : option string :=
  option_map op_name (List.find (fun d => op_value d =? v) opcode_defs).

(** The legend names other than the two jump properties. *)
Definition operand_legend_names : list string :=
  [ "in1"; "in2"; "in3"; "out2"; "out3"; "ncycle" ].

(** The grouping of the jump opcodes, as a check of one definition: a jump
    lies between [OP_VFilter] and [OP_Filter], and an opcode from [OP_Init]
    up to the bound that is no jump has the number of a token. *)
Definition grouping_check (d : OpcodeDef) : bool :=
  match sqlite3OpcodeProperty (op_value d) with
  | None => false
  | Some f =>
      implb (flag_set f OPFLG_JUMP)
            ((OP_VFilter <=? op_value d) && (op_value d <=? OP_Filter))
      && implb ((OP_Init <=? op_value d)
                && (op_value d <=? SQLITE_MX_JUMP_OPCODE)
                && negb (flag_set f OPFLG_JUMP))
               (same_as_token d)
  end.

(** The first field of the comment of [d] is [a]. *)
Definition first_field_is (a : string) (d : OpcodeDef) : bool :=
  match annotations (op_comment d) with
  | [] => false
  | x :: _ => String.eqb a x
  end.

(** The place of the legend names in one comment, as a check: "jump" and
    "jump0" occur as the first field or not at all, the other names never. *)
Definition comment_check (d : OpcodeDef) : bool :=
  Bool.eqb (carries "jump" d) (first_field_is "jump" d)
  && Bool.eqb (carries "jump0" d) (first_field_is "jump0" d)
  && forallb (fun n => negb (carries n d)) operand_legend_names.

(** The text [s] starts with an assignment to the register of P3: "r[P3]="
    that is not the comparison "r[P3]==", or "r[P3] = ". *)
Definition assigns_P3 (s : string) : bool :=
  (String.prefix "r[P3]=" s && negb (String.prefix "r[P3]==" s))
  || String.prefix "r[P3] = " s.

(** The synopsis of [d] starts with an assignment to the register of P3. *)
Definition synopsis_assigns_P3 (d : OpcodeDef) : bool :=
  match synopsis d with
  | None => false
  | Some s => assigns_P3 s
  end.

Definition synopsis_check (d : OpcodeDef) : bool :=
  match sqlite3OpcodeProperty (op_value d) with
  | None => false
  | Some f => implb (flag_set f OPFLG_OUT3) (synopsis_assigns_P3 d)
  end.

(** One definition is found again by its name and by its value, and its
    name starts with "OP_". *)
Definition name_check (d : OpcodeDef) : bool :=
  match opcode_of_name (op_name d), name_of_opcode (op_value d) with
  | Some v, Some n =>
      (v =? op_value d) && String.eqb n (op_name d)
      && String.prefix "OP_" (op_name d)
  | _, _ => false
  end.

(** The synopsis of [d] says that the opcode may go to the instruction P2:
    it contains "goto P2". *)
Definition synopsis_goes_to_P2 (d : OpcodeDef) : bool :=
  match synopsis d with
  | None => false
  | Some s =>
      match String.index 0 "goto P2" s with
      | None => false
      | Some _ => true
      end
  end.

(** The jump flag of the opcodes whose synopsis goes to P2, as a check of
    one definition: all of them have it but [OP_SorterCompare]. *)
Definition goto_check (d : OpcodeDef) : bool :=
  match sqlite3OpcodeProperty (op_value d) with
  | None => false
  | Some f =>
      implb (synopsis_goes_to_P2 d)
            (Bool.eqb (flag_set f OPFLG_JUMP)
                      (negb (op_value d =? OP_SorterCompare)))
  end.

(** ** Basic facts on the flag table *)

Lemma flag_set_true (f flag : Z) : flag_set f flag = true <-> Z.land f flag <> 0.
Proof.
  unfold flag_set. rewrite negb_true_iff, Z.eqb_neq. reflexivity.
Qed.

Lemma flag_set_false (f flag : Z) : flag_set f flag = false <-> Z.land f flag = 0.
Proof.
  unfold flag_set. rewrite negb_false_iff, Z.eqb_eq. reflexivity.
Qed.

Lemma table_all_lookup (P : Z -> Z -> bool) (l : list Z) :
  forall i, table_all P i l = true ->
  forall (k : nat) (f : Z), l !! k = Some f -> P (i + Z.of_nat k) f = true.
Proof.
  induction l as [|x l IH]; intros i Hall k f Hk.
  - destruct k; discriminate.
  - cbn [table_all] in Hall. apply andb_true_iff in Hall as [Hx Hl].
    destruct k as [|k].
    + injection Hk as <-. now replace (i + Z.of_nat 0) with i by lia.
    + replace (i + Z.of_nat (S k)) with (i + 1 + Z.of_nat k) by lia.
      now apply IH.
Qed.

Lemma OPFLG_INITIALIZER_length : length OPFLG_INITIALIZER = 191%nat.
Proof. reflexivity. Qed.

Lemma opcode_property_range (op f : Z) :
  sqlite3OpcodeProperty op = Some f -> 0 <= op <= 190.
Proof.
  unfold sqlite3OpcodeProperty. destruct (Z.leb_spec 0 op) as [Hop|]; [|discriminate].
  intros Hf. apply lookup_lt_Some in Hf. rewrite OPFLG_INITIALIZER_length in Hf. lia.
Qed.

Lemma opcode_property_defined (op : Z) :
  0 <= op <= 190 -> exists f, sqlite3OpcodeProperty op = Some f.
Proof.
  intros Hop. unfold sqlite3OpcodeProperty.
  destruct (Z.leb_spec 0 op) as [_|]; [|lia].
  apply lookup_lt_is_Some. rewrite OPFLG_INITIALIZER_length. lia.
Qed.

(** A property checked on the whole table holds of every entry looked up. *)
Lemma opcode_property_all (P : Z -> Z -> bool) :
  table_all P 0 OPFLG_INITIALIZER = true ->
  forall op f, sqlite3OpcodeProperty op = Some f -> P op f = true.
Proof.
  intros Hall op f Hf. pose proof (opcode_property_range _ _ Hf) as Hop.
  unfold sqlite3OpcodeProperty in Hf.
  destruct (Z.leb_spec 0 op) as [_|]; [|lia].
  pose proof (table_all_lookup P _ 0 Hall _ _ Hf) as HP.
  now replace (0 + Z.of_nat (Z.to_nat op)) with op in HP by lia.
Qed.

(** ** The bound on jump opcodes *)

Lemma jump_flag_bound (v f : Z) :
  sqlite3OpcodeProperty v = Some f ->
  flag_set f OPFLG_JUMP = true -> v <= SQLITE_MX_JUMP_OPCODE.
Proof.
  intros Hf Hjump.
  pose proof (opcode_property_all
    (fun i g => implb (flag_set g OPFLG_JUMP) (i <=? SQLITE_MX_JUMP_OPCODE))
    eq_refl v f Hf) as Hchk.
  cbv beta in Hchk. rewrite Hjump in Hchk. now apply Z.leb_le.
Qed.

(** C1: [SQLITE_MX_JUMP_OPCODE] (65) is the largest opcode flagged as a jump:
    every opcode value in 0..190 has an entry in the flag table, and when
    that entry has the [OPFLG_JUMP] bit the value is at most 65; the entry of
    65 itself has the bit, so the bound is reached: 65 is the maximum that
    a scan of the table computes. *)
Theorem SQLITE_MX_JUMP_OPCODE_is_max_jump :
  (forall v, 0 <= v <= 190 ->
     exists f, sqlite3OpcodeProperty v = Some f /\
               (Z.land f OPFLG_JUMP <> 0 -> v <= SQLITE_MX_JUMP_OPCODE)) /\
  (exists f, sqlite3OpcodeProperty SQLITE_MX_JUMP_OPCODE = Some f /\
             Z.land f OPFLG_JUMP <> 0) /\
  SQLITE_MX_JUMP_OPCODE = max_jump_opcode.
Proof.
  split; [|split; [|reflexivity]].
  - intros v Hv. destruct (opcode_property_defined v Hv) as [f Hf].
    exists f. split; [exact Hf|]. intros Hjump.
    apply flag_set_true in Hjump. exact (jump_flag_bound v f Hf Hjump).
  - exists 0x01. split; [reflexivity | discriminate].
Qed.

(** ** Invariants of the flag table *)

(** The entry of an opcode value in range, with a check [P] of the whole
    table instantiated at it. *)
Lemma opcode_property_checked (P : Z -> Z -> bool) (v : Z) :
  table_all P 0 OPFLG_INITIALIZER = true ->
  0 <= v <= 190 ->
  exists f, sqlite3OpcodeProperty v = Some f /\ P v f = true.
Proof.
  intros Hall Hv. destruct (opcode_property_defined v Hv) as [f Hf].
  exists f. split; [exact Hf | exact (opcode_property_all P Hall v f Hf)].
Qed.

Ltac flags_to_bool :=
  repeat match goal with
  | H : Z.land _ _ <> 0 |- _ => apply flag_set_true in H
  | H : Z.land _ _ = 0 |- _ => apply flag_set_false in H
  | |- Z.land _ _ <> 0 => apply flag_set_true
  | |- Z.land _ _ = 0 => apply flag_set_false
  end.

(** C4: for every opcode value in 0..190, an entry of the flag table with the
    [OPFLG_JUMP0] bit (0x80) also has the [OPFLG_JUMP] bit (0x01): the
    allowance of a zero target only occurs on jump opcodes. *)
Theorem jump0_only_on_jumps (v : Z) :
  0 <= v <= 190 ->
  exists f, sqlite3OpcodeProperty v = Some f /\
            (Z.land f OPFLG_JUMP0 <> 0 -> Z.land f OPFLG_JUMP <> 0).
Proof.
  intros Hv.
  destruct (opcode_property_checked
    (fun _ g => implb (flag_set g OPFLG_JUMP0) (flag_set g OPFLG_JUMP))
    v eq_refl Hv) as (f & Hf & Hchk).
  exists f. split; [exact Hf|]. intros H0. flags_to_bool.
  now rewrite H0 in Hchk.
Qed.

Lemma jump0_only_on_jumps_OP_Init :
  0 <= OP_Init <= 190 /\
  exists f, sqlite3OpcodeProperty OP_Init = Some f /\
            (Z.land f OPFLG_JUMP0 <> 0 -> Z.land f OPFLG_JUMP <> 0).
Proof.
  assert (H : 0 <= OP_Init <= 190) by (unfold OP_Init; lia).
  split; [exact H | exact (jump0_only_on_jumps OP_Init H)].
Defined.

(** C8: for every opcode value in 0..190, an entry with the [OPFLG_JUMP] bit
    has neither the [OPFLG_IN2] bit (0x04) nor the [OPFLG_OUT2] bit (0x10):
    a P2 that is a jump target is never declared as a data operand. *)
Theorem jump_target_is_no_data_operand (v : Z) :
  0 <= v <= 190 ->
  exists f, sqlite3OpcodeProperty v = Some f /\
            (Z.land f OPFLG_JUMP <> 0 ->
             Z.land f OPFLG_IN2 = 0 /\ Z.land f OPFLG_OUT2 = 0).
Proof.
  intros Hv.
  destruct (opcode_property_checked
    (fun _ g => implb (flag_set g OPFLG_JUMP)
                  (negb (flag_set g OPFLG_IN2) && negb (flag_set g OPFLG_OUT2)))
    v eq_refl Hv) as (f & Hf & Hchk).
  exists f. split; [exact Hf|]. intros Hj. flags_to_bool.
  rewrite Hj in Hchk. cbn [implb] in Hchk.
  apply andb_true_iff in Hchk as [H2 Ho]. apply negb_true_iff in H2, Ho.
  split; flags_to_bool; assumption.
Qed.

Lemma jump_target_is_no_data_operand_OP_SeekGE :
  0 <= OP_SeekGE <= 190 /\
  exists f, sqlite3OpcodeProperty OP_SeekGE = Some f /\
            (Z.land f OPFLG_JUMP <> 0 ->
             Z.land f OPFLG_IN2 = 0 /\ Z.land f OPFLG_OUT2 = 0).
Proof.
  assert (H : 0 <= OP_SeekGE <= 190) by (unfold OP_SeekGE; lia).
  split; [exact H | exact (jump_target_is_no_data_operand OP_SeekGE H)].
Defined.

(** C9: for every opcode value in 0..190, the entry never has both the
    [OPFLG_OUT2] bit (0x10) and the [OPFLG_OUT3] bit (0x20): an opcode
    declares at most one output register. *)
Theorem at_most_one_output (v : Z) :
  0 <= v <= 190 ->
  exists f, sqlite3OpcodeProperty v = Some f /\
            ~ (Z.land f OPFLG_OUT2 <> 0 /\ Z.land f OPFLG_OUT3 <> 0) /\
            (length (declared_outputs f) <= 1)%nat.
Proof.
  intros Hv.
  destruct (opcode_property_checked
    (fun _ g => negb (flag_set g OPFLG_OUT2 && flag_set g OPFLG_OUT3))
    v eq_refl Hv) as (f & Hf & Hchk).
  exists f. split; [exact Hf|]. apply negb_true_iff, andb_false_iff in Hchk.
  split.
  - intros [H2 H3]. flags_to_bool. destruct Hchk; congruence.
  - unfold declared_outputs. destruct Hchk as [-> | ->].
    + destruct (flag_set f OPFLG_OUT3); cbn; lia.
    + destruct (flag_set f OPFLG_OUT2); cbn; lia.
Qed.

Lemma at_most_one_output_OP_Add :
  0 <= OP_Add <= 190 /\
  exists f, sqlite3OpcodeProperty OP_Add = Some f /\
            ~ (Z.land f OPFLG_OUT2 <> 0 /\ Z.land f OPFLG_OUT3 <> 0) /\
            (length (declared_outputs f) <= 1)%nat.
Proof.
  assert (H : 0 <= OP_Add <= 190) by (unfold OP_Add; lia).
  split; [exact H | exact (at_most_one_output OP_Add H)].
Defined.

(** ** The operand-role flags *)

Lemma all_roles_complete (r : OperandRole) : In r all_roles.
Proof. destruct r; cbn; tauto. Qed.

Lemma role_flag_single_bit (r : OperandRole) :
  exists n, 0 <= n < 8 /\ role_flag r = Z.shiftl 1 n.
Proof.
  destruct r;
    [ exists 0 | exists 1 | exists 2 | exists 3
    | exists 4 | exists 5 | exists 6 | exists 7 ];
    (split; [lia | reflexivity]).
Qed.

Lemma role_flag_disjoint (r1 r2 : OperandRole) :
  r1 <> r2 -> Z.land (role_flag r1) (role_flag r2) = 0.
Proof. destruct r1, r2; intros Hne; try reflexivity; now destruct Hne. Qed.

Lemma role_flag_covers (n : Z) :
  0 <= n < 8 -> exists r, Z.testbit (role_flag r) n = true.
Proof.
  intros Hn.
  assert (Hcases : n = 0 \/ n = 1 \/ n = 2 \/ n = 3 \/
                   n = 4 \/ n = 5 \/ n = 6 \/ n = 7) by lia.
  destruct Hcases as [->|[->|[->|[->|[->|[->|[->| ->]]]]]]];
    [ exists IsJump | exists Input1 | exists Input2 | exists Input3
    | exists Output2 | exists Output3 | exists CountsAgainstCursorP1
    | exists JumpTargetMayBeZero ]; reflexivity.
Qed.

(** C5: the operand-role flags are exactly eight roles (IsJump, Input1,
    Input2, Input3, Output2, Output3, CountsAgainstCursorP1,
    JumpTargetMayBeZero), encoded in this order by the constants 0x01, 0x02,
    0x04, 0x08, 0x10, 0x20, 0x40, 0x80 of the header; each constant is a
    single bit, two roles never share a constant or a bit, and together the
    constants cover every bit of one byte. *)
Theorem operand_role_flags_partition_a_byte :
  (forall r, In r all_roles) /\
  List.NoDup all_roles /\
  length all_roles = 8%nat /\
  map role_flag all_roles = [0x01; 0x02; 0x04; 0x08; 0x10; 0x20; 0x40; 0x80] /\
  map role_flag all_roles = map snd OPFLG_legend /\
  (forall r, exists n, 0 <= n < 8 /\ role_flag r = Z.shiftl 1 n) /\
  (forall r1 r2, r1 <> r2 ->
     role_flag r1 <> role_flag r2 /\ Z.land (role_flag r1) (role_flag r2) = 0) /\
  flags_union (map role_flag all_roles) = 0xff /\
  (forall n, 0 <= n < 8 -> exists r, Z.testbit (role_flag r) n = true).
Proof.
  split; [exact all_roles_complete|].
  split.
  { apply (NoDup_map_inv role_flag). cbn.
    repeat (constructor; [cbn; intuition discriminate|]). constructor. }
  split; [reflexivity|].
  split; [reflexivity|].
  split; [reflexivity|].
  split; [exact role_flag_single_bit|].
  split.
  { intros r1 r2 Hne. split; [|now apply role_flag_disjoint].
    destruct r1, r2; try discriminate; now destruct Hne. }
  split; [reflexivity | exact role_flag_covers].
Qed.

(** ** The opcode numbers index the flag table *)

Lemma opcode_values_consecutive :
  map op_value opcode_defs = map Z.of_nat (seq 0 191).
Proof. reflexivity. Qed.

Lemma opcode_values_NoDup : List.NoDup (map op_value opcode_defs).
Proof.
  rewrite opcode_values_consecutive.
  apply Finite.Injective_map_NoDup; [|apply List.seq_NoDup].
  intros a b. apply Nat2Z.inj.
Qed.

Lemma opcode_defs_value_range (d : OpcodeDef) :
  In d opcode_defs -> 0 <= op_value d <= 190.
Proof.
  intros Hd. apply (in_map op_value) in Hd.
  rewrite opcode_values_consecutive in Hd.
  apply in_map_iff in Hd as (n & <- & Hn). apply in_seq in Hn. lia.
Qed.

Lemma opcode_value_determines_def (d1 d2 : OpcodeDef) :
  In d1 opcode_defs -> In d2 opcode_defs ->
  op_value d1 = op_value d2 -> d1 = d2.
Proof.
  intros H1 H2 Heq.
  apply In_nth_error in H1 as [i Hi]. apply In_nth_error in H2 as [j Hj].
  assert (Hlt : (i < length (map op_value opcode_defs))%nat).
  { rewrite length_map. apply nth_error_Some. congruence. }
  assert (Hij : i = j).
  { apply (proj1 (NoDup_nth_error _) opcode_values_NoDup i j Hlt).
    rewrite !nth_error_map, Hi, Hj. cbn. now rewrite Heq. }
  subst j. congruence.
Qed.

(** C6: the opcode identifiers of the header take the consecutive values 0
    to 190, each once (191 opcodes, from [OP_Savepoint] = 0 to
    [OP_Abortable] = 190), and [OPFLG_INITIALIZER] has exactly 191 entries,
    so the flag table has an entry at the value of every defined opcode. *)
Theorem opcode_values_index_the_flag_table :
  map op_value opcode_defs = map Z.of_nat (seq 0 191) /\
  List.NoDup (map op_value opcode_defs) /\
  (forall d1 d2, In d1 opcode_defs -> In d2 opcode_defs ->
     op_value d1 = op_value d2 -> d1 = d2) /\
  length opcode_defs = 191%nat /\
  OP_Savepoint = 0 /\ OP_Abortable = 190 /\
  length OPFLG_INITIALIZER = 191%nat /\
  (forall d, In d opcode_defs ->
     0 <= op_value d < Z.of_nat (length OPFLG_INITIALIZER) /\
     exists f, sqlite3OpcodeProperty (op_value d) = Some f).
Proof.
  split; [exact opcode_values_consecutive|].
  split; [exact opcode_values_NoDup|].
  split; [exact opcode_value_determines_def|].
  split; [reflexivity|].
  split; [reflexivity|].
  split; [reflexivity|].
  split; [reflexivity|].
  intros d Hd. pose proof (opcode_defs_value_range d Hd) as Hr.
  split; [rewrite OPFLG_INITIALIZER_length; lia|].
  now apply opcode_property_defined.
Qed.

(** ** The comparison and arithmetic families *)

Lemma arithmetic_family_flags (opc : Z) :
  In opc arithmetic_family -> sqlite3OpcodeProperty opc = Some 0x26.
Proof.
  intros Hin. cbn in Hin.
  repeat (destruct Hin as [<- | Hin]; [reflexivity|]). destruct Hin.
Qed.

Lemma comparison_family_flags (opc : Z) :
  In opc comparison_family -> sqlite3OpcodeProperty opc = Some 0x0b.
Proof.
  intros Hin. cbn in Hin.
  repeat (destruct Hin as [<- | Hin]; [reflexivity|]). destruct Hin.
Qed.

(** C3, as stated, fails: [OP_Ne] is in the comparison family, its entry
    0x0b (jump, in1, in3) declares no output register, so not every opcode
    of the two families declares two inputs and one output. *)
Lemma comparison_declares_no_output :
  In OP_Ne (comparison_family ++ arithmetic_family) /\
  sqlite3OpcodeProperty OP_Ne = Some 0x0b /\
  declared_outputs 0x0b = [] /\
  ~ families_binary_in_out.
Proof.
  assert (Hin : In OP_Ne (comparison_family ++ arithmetic_family))
    by (left; reflexivity).
  split; [exact Hin|]. split; [reflexivity|]. split; [reflexivity|].
  intros Hall. destruct (Hall OP_Ne Hin) as (f & Hf & _ & Hout).
  assert (f = 0x0b) as -> by (cbv in Hf; congruence).
  discriminate Hout.
Qed.

(** C3, amended: every opcode of the arithmetic family (OP_BitAnd ..
    OP_Concat) has an entry that declares the two inputs P1 and P2 and the
    one output P3, and is no jump; every opcode of the comparison family
    (OP_Ne .. OP_Ge) has an entry that declares the two inputs P1 and P3,
    no output register, and P2 as a jump target. *)
Theorem arithmetic_binary_comparison_jump :
  (forall opc, In opc arithmetic_family ->
     exists f, sqlite3OpcodeProperty opc = Some f /\
               declared_inputs f = [P1; P2] /\ declared_outputs f = [P3] /\
               binary_in_out f /\ Z.land f OPFLG_JUMP = 0) /\
  (forall opc, In opc comparison_family ->
     exists f, sqlite3OpcodeProperty opc = Some f /\
               declared_inputs f = [P1; P3] /\ declared_outputs f = [] /\
               Z.land f OPFLG_JUMP <> 0).
Proof.
  split; intros opc Hin.
  - exists 0x26. split; [now apply arithmetic_family_flags|].
    repeat split; reflexivity.
  - exists 0x0b. split; [now apply comparison_family_flags|].
    split; [reflexivity|]. split; [reflexivity | discriminate].
Qed.

(** ** Annotations and flags *)

Example annotations_OP_IsNull :
  annotations (Some "jump, same as TK_ISNULL, synopsis: if r[P1]==NULL goto P2")
  = ["jump"; "same as TK_ISNULL"; "synopsis: if r[P1]==NULL goto P2"].
Proof. reflexivity. Qed.

Example annotations_OP_IfNullRow :
  annotations (Some "jump, synopsis: if P1.nullRow then r[P3]=NULL, goto P2")
  = ["jump"; "synopsis: if P1.nullRow then r[P3]=NULL"; "goto P2"].
Proof. reflexivity. Qed.

Lemma annotation_check_all : forallb annotation_check opcode_defs = true.
Proof. vm_compute. reflexivity. Qed.

(** C10: for every opcode definition of the header, the [OPFLG_JUMP] bit of
    its entry in the flag table is set exactly when its comment carries the
    annotation "jump" or "jump0", and the [OPFLG_JUMP0] bit exactly when it
    carries "jump0"; the two jump bits of the entry are the ones the
    annotations give. *)
Theorem jump_annotations_agree_with_flags (d : OpcodeDef) :
  In d opcode_defs ->
  exists f, sqlite3OpcodeProperty (op_value d) = Some f /\
    (Z.land f OPFLG_JUMP <> 0 <->
       carries "jump" d = true \/ carries "jump0" d = true) /\
    (Z.land f OPFLG_JUMP0 <> 0 <-> carries "jump0" d = true) /\
    Z.land f (Z.lor OPFLG_JUMP OPFLG_JUMP0) = jump_bits_of_annotations d.
Proof.
  intros Hd.
  pose proof (proj1 (forallb_forall _ _) annotation_check_all d Hd) as Hchk.
  unfold annotation_check in Hchk.
  destruct (sqlite3OpcodeProperty (op_value d)) as [f|]; [|discriminate].
  apply andb_true_iff in Hchk as [Hchk Hbits].
  apply andb_true_iff in Hchk as [Hj Hj0].
  apply Bool.eqb_prop in Hj, Hj0. apply Z.eqb_eq in Hbits.
  exists f. split; [reflexivity|].
  rewrite <- !flag_set_true, Hj, Hj0, orb_true_iff. tauto.
Qed.

Lemma jump_annotations_agree_with_flags_OP_Init :
  let d := mkOpcodeDef "OP_Init" OP_Init (Some "jump0, synopsis: Start at P2") in
  In d opcode_defs /\
  exists f, sqlite3OpcodeProperty (op_value d) = Some f /\
    (Z.land f OPFLG_JUMP <> 0 <->
       carries "jump" d = true \/ carries "jump0" d = true) /\
    (Z.land f OPFLG_JUMP0 <> 0 <-> carries "jump0" d = true) /\
    Z.land f (Z.lor OPFLG_JUMP OPFLG_JUMP0) = jump_bits_of_annotations d.
Proof.
  intros d.
  assert (Hd : In d opcode_defs) by (apply (nth_error_In _ 8); reflexivity).
  split; [exact Hd | exact (jump_annotations_agree_with_flags d Hd)].
Defined.

(** ** The resolution pass *)

(** The bound is a short cut only: the pass decides the same with and
    without it. *)
Lemma resolveP2_bound_sound (nOp : Z) (op : Instruction) :
  resolveP2 nOp op = resolveP2_unbounded nOp op.
Proof.
  unfold resolveP2, resolveP2_unbounded.
  destruct (Z.leb_spec (opcode op) SQLITE_MX_JUMP_OPCODE) as [Hle|Hgt];
    [reflexivity|].
  destruct (sqlite3OpcodeProperty (opcode op)) as [f|] eqn:Hf; [|reflexivity].
  destruct (flag_set f OPFLG_JUMP) eqn:Hj; [|reflexivity].
  pose proof (jump_flag_bound _ _ Hf Hj). lia.
Qed.

Lemma resolveP2_accepts (nOp : Z) (op : Instruction) :
  is_Some (resolveP2 nOp op) <-> jump_target_ok nOp op.
Proof.
  rewrite resolveP2_bound_sound. unfold resolveP2_unbounded, jump_target_ok.
  destruct (sqlite3OpcodeProperty (opcode op)) as [f|] eqn:Hf.
  2:{ split; [intros _ g Hg; discriminate | intros _; eauto]. }
  destruct (flag_set f OPFLG_JUMP) eqn:Hj.
  2:{ split; [|intros _; eauto].
      intros _ g Hg Hjg. injection Hg as <-.
      apply flag_set_true in Hjg. congruence. }
  destruct (flag_set f OPFLG_JUMP0 && (p2 op =? 0)) eqn:H0.
  { split; [|intros _; eauto].
    intros _ g Hg _. injection Hg as <-.
    apply andb_true_iff in H0 as [H0 Hz].
    right. split; [now apply flag_set_true | now apply Z.eqb_eq]. }
  destruct ((0 <=? p2 op) && (p2 op <? nOp)) eqn:Hr.
  { split; [|intros _; eauto].
    intros _ g Hg _. left. apply andb_true_iff in Hr as [Hlo Hhi].
    apply Z.leb_le in Hlo. apply Z.ltb_lt in Hhi. lia. }
  split; [intros [r Hr']; discriminate|].
  intros Hok. exfalso.
  destruct (Hok f eq_refl (proj1 (flag_set_true _ _) Hj)) as [Hin | [Hj0 Hz]].
  - apply andb_false_iff in Hr as [Hlo | Hhi].
    + apply Z.leb_gt in Hlo. lia.
    + apply Z.ltb_ge in Hhi. lia.
  - apply flag_set_true in Hj0. apply Z.eqb_eq in Hz.
    rewrite Hj0, Hz in H0. discriminate.
Qed.

(** A zero P2 of an opcode flagged [OPFLG_JUMP0] is resolved to "no jump",
    never to a jump to instruction 0. *)
Lemma resolveP2_jump0_zero (nOp : Z) (op : Instruction) (f : Z) :
  sqlite3OpcodeProperty (opcode op) = Some f ->
  Z.land f OPFLG_JUMP <> 0 -> Z.land f OPFLG_JUMP0 <> 0 -> p2 op = 0 ->
  resolveP2 nOp op = Some P2FallThrough.
Proof.
  intros Hf Hj Hj0 Hz. rewrite resolveP2_bound_sound.
  unfold resolveP2_unbounded. apply flag_set_true in Hj, Hj0.
  now rewrite Hf, Hj, Hj0, Hz.
Qed.

Lemma registers_within_ok (nReg : Z) (op : Instruction) :
  registers_within nReg op = true <-> registers_ok nReg op.
Proof.
  unfold registers_within, registers_ok, register_overflows.
  rewrite forallb_forall. split; intros H r Hr.
  - specialize (H r Hr). apply negb_true_iff, Z.leb_gt in H. exact H.
  - apply negb_true_iff, Z.leb_gt. now apply H.
Qed.

Lemma resolve_from_inr (nOp nReg : Z) (ops : list Instruction) :
  forall addr roles,
    resolve_from nOp nReg addr ops = inr roles ->
    Forall2 (fun op r => resolveP2 nOp op = Some r) ops roles.
Proof.
  induction ops as [|op ops IH]; intros addr roles; cbn [resolve_from].
  - intros [= <-]. constructor.
  - destruct (resolveP2 nOp op) as [r|] eqn:Hr; [|discriminate].
    destruct (registers_within nReg op); [|discriminate].
    destruct (resolve_from nOp nReg (S addr) ops) as [e|rs] eqn:Hrest;
      [discriminate|].
    intros [= <-]. constructor; [exact Hr | now apply (IH (S addr))].
Qed.

Lemma resolve_from_accepts (nOp nReg : Z) (ops : list Instruction) (addr : nat) :
  (exists roles, resolve_from nOp nReg addr ops = inr roles) <->
  Forall (jump_target_ok nOp) ops /\ Forall (registers_ok nReg) ops.
Proof.
  revert addr. induction ops as [|op ops IH]; intros addr; cbn [resolve_from].
  - split; [split; constructor | eauto].
  - rewrite !Forall_cons, <- resolveP2_accepts, <- registers_within_ok.
    specialize (IH (S addr)).
    destruct (resolveP2 nOp op) as [r|].
    2:{ split; [intros [? ?]; discriminate|].
        intros [[[? ?] _] _]; discriminate. }
    destruct (registers_within nReg op).
    2:{ split; [intros [? ?]; discriminate|].
        intros [_ [? _]]; discriminate. }
    destruct (resolve_from nOp nReg (S addr) ops) as [e|rs].
    + split; [intros [? ?]; discriminate|].
      intros [[_ Hj] [_ Hr]].
      destruct (proj2 IH (conj Hj Hr)) as [? ?]; discriminate.
    + destruct (proj1 IH (ex_intro _ rs eq_refl)) as [Hj Hr].
      split; [intros _ | eauto]. repeat split; eauto.
Qed.

Lemma resolveP2_jump (nOp : Z) (op : Instruction) (f : Z) (r : P2Role) :
  sqlite3OpcodeProperty (opcode op) = Some f ->
  Z.land f OPFLG_JUMP <> 0 ->
  resolveP2 nOp op = Some r ->
  (Z.land f OPFLG_JUMP0 <> 0 /\ p2 op = 0 /\ r = P2FallThrough) \/
  (~ (Z.land f OPFLG_JUMP0 <> 0 /\ p2 op = 0) /\
   0 <= p2 op < nOp /\ r = P2Target (p2 op)).
Proof.
  intros Hf Hj. rewrite resolveP2_bound_sound. unfold resolveP2_unbounded.
  apply flag_set_true in Hj. rewrite Hf, Hj.
  destruct (flag_set f OPFLG_JUMP0 && (p2 op =? 0)) eqn:H0.
  - intros [= <-]. left. apply andb_true_iff in H0 as [H0 Hz].
    apply flag_set_true in H0. apply Z.eqb_eq in Hz. tauto.
  - destruct ((0 <=? p2 op) && (p2 op <? nOp)) eqn:Hr; [|discriminate].
    intros [= <-]. right. apply andb_true_iff in Hr as [Hlo Hhi].
    apply Z.leb_le in Hlo. apply Z.ltb_lt in Hhi.
    split; [|split; [lia | reflexivity]].
    intros [Hj0 Hz]. apply flag_set_true in Hj0. apply Z.eqb_eq in Hz.
    rewrite Hj0, Hz in H0. discriminate.
Qed.

Example resolve_accepted :
  resolveP2Values
    (mkProgram
       [ mkInstruction OP_Init 0 0 0 None 0;
         mkInstruction OP_Goto 0 2 0 None 0;
         mkInstruction OP_Halt 0 0 0 None 0 ] 1 0)
  = inr [P2FallThrough; P2Target 2; P2NotJump].
Proof. reflexivity. Qed.

Example resolve_rejected_beyond_end :
  resolveP2Values
    (mkProgram
       [ mkInstruction OP_Init 0 1 0 None 0;
         mkInstruction OP_Goto 0 2 0 None 0 ] 1 0)
  = inl (InvalidJumpTarget 1).
Proof. reflexivity. Qed.

Example resolve_rejected_negative :
  resolveP2Values (mkProgram [ mkInstruction OP_If 1 (-1) 0 None 0 ] 2 0)
  = inl (InvalidJumpTarget 0).
Proof. reflexivity. Qed.

Example resolve_rejected_register :
  resolveP2Values
    (mkProgram
       [ mkInstruction OP_Init 0 1 0 None 0;
         mkInstruction OP_Integer 5 4 0 None 0;
         mkInstruction OP_Halt 0 0 0 None 0 ] 4 0)
  = inl (RegisterCountOverflow 1).
Proof. reflexivity. Qed.

Example resolve_register_within_count :
  resolveP2Values
    (mkProgram
       [ mkInstruction OP_Init 0 1 0 None 0;
         mkInstruction OP_Integer 5 4 0 None 0;
         mkInstruction OP_Halt 0 0 0 None 0 ] 5 0)
  = inr [P2Target 1; P2NotJump; P2NotJump].
Proof. reflexivity. Qed.

(** C2, as stated, fails: a program of the one instruction [OP_Add] with
    registers 1, 2 and 7 and a declared register count of 3 has no jump at
    all, so every jump target in it is valid, and the pass still refuses it,
    for register-count overflow. *)
Lemma register_overflow_is_refused :
  jump_targets_valid (mkProgram [ mkInstruction OP_Add 1 2 7 None 0 ] 3 0) /\
  resolveP2Values (mkProgram [ mkInstruction OP_Add 1 2 7 None 0 ] 3 0)
    = inl (RegisterCountOverflow 0) /\
  accepted (mkProgram [ mkInstruction OP_Add 1 2 7 None 0 ] 3 0) = false /\
  ~ accepts_iff_jump_targets_valid.
Proof.
  assert (Hj : jump_targets_valid
                 (mkProgram [ mkInstruction OP_Add 1 2 7 None 0 ] 3 0)).
  { unfold jump_targets_valid. cbn. constructor; [|constructor].
    intros f Hf Hjump. cbv in Hf. injection Hf as <-. now destruct Hjump. }
  split; [exact Hj|]. split; [reflexivity|]. split; [reflexivity|].
  intros Hall. apply Hall in Hj. discriminate Hj.
Qed.

(** C2, amended: for every program without register-count overflow (no
    instruction names a declared register at or beyond the declared register
    count), the resolution pass accepts the program exactly when every
    instruction whose opcode is flagged [OPFLG_JUMP] has its P2 in [0, length
    of the program), or has P2 = 0 when the opcode is also flagged
    [OPFLG_JUMP0]; for every program, it accepts exactly when this holds and
    there is no register-count overflow.  In an accepted program such a zero
    P2 is recorded as "no jump" and every other jump as a jump to the
    instruction P2; a program that is refused ends with the load error and no
    instruction executed. *)
Theorem resolution_accepts_valid_programs (prog : Program) :
  (no_register_overflow prog ->
   (accepted prog = true <-> jump_targets_valid prog)) /\
  (accepted prog = true <->
   jump_targets_valid prog /\ no_register_overflow prog) /\
  (forall roles, resolveP2Values prog = inr roles ->
   forall (addr : nat) op f,
     prog_ops prog !! addr = Some op ->
     sqlite3OpcodeProperty (opcode op) = Some f ->
     Z.land f OPFLG_JUMP <> 0 ->
     (Z.land f OPFLG_JUMP0 <> 0 /\ p2 op = 0 /\
      roles !! addr = Some P2FallThrough) \/
     (~ (Z.land f OPFLG_JUMP0 <> 0 /\ p2 op = 0) /\
      0 <= p2 op < Z.of_nat (length (prog_ops prog)) /\
      roles !! addr = Some (P2Target (p2 op)))) /\
  (forall interp, accepted prog = false ->
   exists e, resolveP2Values prog = inl e /\
             run_program interp prog = mkRun [] (HaltNotLoaded e)).
Proof.
  assert (Hacc : accepted prog = true <->
                 jump_targets_valid prog /\ no_register_overflow prog).
  { unfold jump_targets_valid, no_register_overflow.
    rewrite <- (resolve_from_accepts _ _ (prog_ops prog) 0%nat).
    unfold accepted, resolveP2Values.
    destruct (resolve_from _ _ 0 (prog_ops prog)) as [e|rs].
    - split; [discriminate | intros [? ?]; discriminate].
    - split; eauto. }
  split; [|split; [exact Hacc|split]].
  - intros Hreg. rewrite Hacc. tauto.
  - intros roles Hres addr op f Hop Hf Hj.
    apply resolve_from_inr in Hres.
    destruct (Forall2_lookup_l _ _ _ _ _ Hres Hop) as (r & Hr & Hop2).
    destruct (resolveP2_jump _ _ _ _ Hf Hj Hop2)
      as [(H0 & Hz & ->) | (Hn & Hrange & ->)]; [left | right]; tauto.
  - intros interp. unfold accepted, run_program.
    destruct (resolveP2Values prog) as [e|rs]; [|discriminate].
    intros _. exists e. split; reflexivity.
Qed.

Lemma resolution_accepts_valid_programs_init_goto_halt :
  no_register_overflow
    (mkProgram
       [ mkInstruction OP_Init 0 0 0 None 0;
         mkInstruction OP_Goto 0 2 0 None 0;
         mkInstruction OP_Halt 0 0 0 None 0 ] 1 0) /\
  (accepted
     (mkProgram
        [ mkInstruction OP_Init 0 0 0 None 0;
          mkInstruction OP_Goto 0 2 0 None 0;
          mkInstruction OP_Halt 0 0 0 None 0 ] 1 0) = true <->
   jump_targets_valid
     (mkProgram
        [ mkInstruction OP_Init 0 0 0 None 0;
          mkInstruction OP_Goto 0 2 0 None 0;
          mkInstruction OP_Halt 0 0 0 None 0 ] 1 0)).
Proof.
  assert (Hreg : no_register_overflow
    (mkProgram
       [ mkInstruction OP_Init 0 0 0 None 0;
         mkInstruction OP_Goto 0 2 0 None 0;
         mkInstruction OP_Halt 0 0 0 None 0 ] 1 0)).
  { unfold no_register_overflow. cbn.
    repeat (constructor; [intros r Hr; destruct Hr|]). constructor. }
  split; [exact Hreg|].
  exact (proj1 (resolution_accepts_valid_programs _) Hreg).
Defined.

(** ** NULL propagation *)

Lemma read_write (rf : gmap Z Register) (r : Z) (v : Value) :
  reg_value (read (write rf r v) r) = v.
Proof. unfold read, write. now rewrite lookup_insert_eq. Qed.

Lemma binary_result_null (compute : Z -> Value -> Value -> Value)
    (opc : Z) (a b : Value) :
  a = Null \/ b = Null -> binary_result compute opc a b = Null.
Proof.
  unfold binary_result. intros [-> | ->]; [reflexivity|].
  now rewrite orb_true_r.
Qed.

Lemma arithmetic_registers (op : Instruction) :
  In (opcode op) arithmetic_family ->
  input_registers op = [p1 op; p2 op] /\ output_register op = Some (p3 op).
Proof.
  intros Hin. unfold input_registers, output_register.
  now rewrite (arithmetic_family_flags _ Hin).
Qed.

Lemma comparison_registers (op : Instruction) :
  In (opcode op) comparison_family ->
  input_registers op = [p1 op; p3 op] /\ output_register op = None.
Proof.
  intros Hin. unfold input_registers, output_register.
  now rewrite (comparison_family_flags _ Hin).
Qed.

Section NullPropagation.

Variable compute : Z -> Value -> Value -> Value.

Lemma arithmetic_null_result (rf : gmap Z Register) (op : Instruction) :
  In (opcode op) arithmetic_family ->
  reg_value (read rf (p1 op)) = Null \/ reg_value (read rf (p2 op)) = Null ->
  exists rf', exec_binary compute rf op = Some rf' /\
              reg_value (read rf' (p3 op)) = Null.
Proof.
  intros Hin Hnull. destruct (arithmetic_registers op Hin) as [Hi Ho].
  unfold exec_binary. rewrite Hi, Ho. eexists. split; [reflexivity|].
  rewrite read_write. now apply binary_result_null.
Qed.

Lemma arithmetic_null_propagates (opc : Z) :
  In opc arithmetic_family -> null_propagates compute opc.
Proof.
  intros Hin rf op <- (r & Hr & Hnull).
  destruct (arithmetic_registers op Hin) as [Hi Ho].
  rewrite Hi in Hr.
  destruct (arithmetic_null_result rf op Hin) as (rf' & Hexec & Hout).
  { destruct Hr as [<- | [<- | []]]; tauto. }
  exists (p3 op), rf'. auto.
Qed.

(** Whatever the family, a declared output register receives the Null. *)
Lemma declared_output_receives_null (rf : gmap Z Register) (op : Instruction)
    (ro : Z) :
  In (opcode op) (arithmetic_family ++ comparison_family) ->
  output_register op = Some ro ->
  null_input rf op ->
  exists rf', exec_binary compute rf op = Some rf' /\
              reg_value (read rf' ro) = Null.
Proof.
  intros Hin Ho Hnull. apply in_app_or in Hin as [Ha | Hc].
  - destruct (arithmetic_null_propagates _ Ha rf op eq_refl Hnull)
      as (ro' & rf' & Ho' & Hexec & Hout).
    exists rf'. split; [exact Hexec|]. congruence.
  - destruct (comparison_registers op Hc) as [_ Hnone]. congruence.
Qed.

End NullPropagation.

(** C7, as stated, fails on the comparison family: [OP_Lt] with a Null in
    the register of its P1 operand has no output register, so no register
    receives a Null. *)
Lemma comparison_has_no_output_for_null :
  null_input ∅ (mkInstruction OP_Lt 1 5 2 None 0) /\
  output_register (mkInstruction OP_Lt 1 5 2 None 0) = None /\
  ~ families_null_propagate.
Proof.
  assert (Hnull : null_input ∅ (mkInstruction OP_Lt 1 5 2 None 0)).
  { exists 1. split; [left; reflexivity|].
    unfold read. now rewrite lookup_empty. }
  split; [exact Hnull|]. split; [reflexivity|].
  intros Hall.
  assert (Hin : In OP_Lt (arithmetic_family ++ comparison_family)).
  { apply in_or_app. right. cbn. tauto. }
  destruct (Hall (fun _ _ _ => Null) OP_Lt Hin ∅
              (mkInstruction OP_Lt 1 5 2 None 0) eq_refl Hnull)
    as (ro & rf' & Hro & _).
  discriminate Hro.
Qed.

(** C7, amended: for every opcode of the arithmetic and comparison families
    whose entry in the flag table declares an output register, and for all
    values of its input registers, a Null in either input register makes the
    operation write Null to the output register.  The opcodes of the
    arithmetic family (OP_BitAnd .. OP_Concat) are such opcodes: their inputs
    are the registers of P1 and P2 and their output is the register of P3.
    The opcodes of the comparison family (OP_Ne .. OP_Ge) declare no output
    register. *)
Theorem arithmetic_null_propagation (compute : Z -> Value -> Value -> Value) :
  (forall (rf : gmap Z Register) (op : Instruction) (ro : Z),
     In (opcode op) (arithmetic_family ++ comparison_family) ->
     output_register op = Some ro ->
     null_input rf op ->
     exists rf', exec_binary compute rf op = Some rf' /\
                 reg_value (read rf' ro) = Null) /\
  (forall (rf : gmap Z Register) (op : Instruction),
     In (opcode op) arithmetic_family ->
     input_registers op = [p1 op; p2 op] /\
     output_register op = Some (p3 op) /\
     (reg_value (read rf (p1 op)) = Null \/
      reg_value (read rf (p2 op)) = Null ->
      exists rf', exec_binary compute rf op = Some rf' /\
                  reg_value (read rf' (p3 op)) = Null)) /\
  (forall opc, In opc arithmetic_family -> null_propagates compute opc) /\
  (forall op : Instruction,
     In (opcode op) comparison_family -> output_register op = None).
Proof.
  split; [|split; [|split]].
  - apply declared_output_receives_null.
  - intros rf op Hin. destruct (arithmetic_registers op Hin) as [Hi Ho].
    split; [exact Hi|]. split; [exact Ho|].
    now apply arithmetic_null_result.
  - apply arithmetic_null_propagates.
  - intros op Hin. apply (comparison_registers op Hin).
Qed.

(** * Further properties of the header *)

(** ** Flag bytes and sets of roles *)

Lemma flags_of_roles_cons (r : OperandRole) (rs : list OperandRole) :
  flags_of_roles (r :: rs) = Z.lor (role_flag r) (flags_of_roles rs).
Proof. reflexivity. Qed.

Lemma role_flag_test (a r : OperandRole) :
  flag_set (role_flag a) (role_flag r) = true <-> a = r.
Proof.
  split.
  - destruct a, r; intros H; try reflexivity; discriminate H.
  - intros ->. destruct r; reflexivity.
Qed.

Lemma flag_set_lor (a b flag : Z) :
  flag_set (Z.lor a b) flag = flag_set a flag || flag_set b flag.
Proof.
  unfold flag_set. rewrite Z.land_lor_distr_l, <- negb_andb. f_equal.
  apply eq_true_iff_eq.
  rewrite andb_true_iff, !Z.eqb_eq. apply Z.lor_eq_0_iff.
Qed.

Lemma flags_of_roles_test (rs : list OperandRole) (r : OperandRole) :
  flag_set (flags_of_roles rs) (role_flag r) = true <-> In r rs.
Proof.
  induction rs as [|a rs IH].
  - cbn. split; [discriminate | tauto].
  - rewrite flags_of_roles_cons, flag_set_lor, orb_true_iff, IH, role_flag_test.
    reflexivity.
Qed.

Lemma flags_of_roles_byte (rs : list OperandRole) :
  Z.land (flags_of_roles rs) 0xff = flags_of_roles rs.
Proof.
  induction rs as [|a rs IH]; [reflexivity|].
  rewrite flags_of_roles_cons, Z.land_lor_distr_l, IH. f_equal.
  now destruct a.
Qed.

Lemma flags_of_roles_range (rs : list OperandRole) :
  0 <= flags_of_roles rs < 256.
Proof.
  rewrite <- flags_of_roles_byte. change 0xff with (Z.ones 8).
  rewrite Z.land_ones by lia. apply Z.mod_pos_bound. reflexivity.
Qed.

Lemma byte_encodes_its_roles (f : Z) :
  0 <= f < 256 -> flags_of_roles (roles_of f) = f.
Proof.
  intros Hf.
  assert (Hall : forallb (fun n => flags_of_roles (roles_of (Z.of_nat n)) =? Z.of_nat n)
                   (seq 0 256) = true) by (vm_compute; reflexivity).
  pose proof (proj1 (forallb_forall _ _) Hall (Z.to_nat f)) as Hn.
  cbv beta in Hn. rewrite Z2Nat.id in Hn by lia.
  apply Z.eqb_eq, Hn, in_seq. lia.
Qed.

(** X1: a flag byte and the set of roles it declares determine each other.
    Every byte is the union of the flags of the roles it declares; the
    union of the flags of any roles is a byte that declares exactly those
    roles; and every entry of the table is such a byte. *)
Theorem flag_bytes_encode_role_sets :
  (forall f, 0 <= f < 256 -> flags_of_roles (roles_of f) = f) /\
  (forall rs, 0 <= flags_of_roles rs < 256 /\
              forall r, In r (roles_of (flags_of_roles rs)) <-> In r rs) /\
  (forall v f, sqlite3OpcodeProperty v = Some f ->
               0 <= f < 256 /\ flags_of_roles (roles_of f) = f).
Proof.
  split; [exact byte_encodes_its_roles|]. split.
  - intros rs. split; [apply flags_of_roles_range|].
    intros r. unfold roles_of. rewrite filter_In, flags_of_roles_test.
    pose proof (all_roles_complete r). tauto.
  - intros v f Hf.
    assert (Hb : 0 <= f < 256).
    { pose proof (opcode_property_all (fun _ g => (0 <=? g) && (g <? 256))
                    eq_refl v f Hf) as Hchk.
      apply andb_true_iff in Hchk as [Hlo Hhi].
      apply Z.leb_le in Hlo. apply Z.ltb_lt in Hhi. lia. }
    split; [exact Hb | now apply byte_encodes_its_roles].
Qed.

(** ** Operand slots with two roles *)

(** X2: for every opcode value in 0..190, an entry with the [OPFLG_NCYCLE]
    bit (cycles count against the cursor P1) never has the [OPFLG_IN1] bit:
    a P1 that names the cursor charged with the cycles is never declared a
    register input. *)
Theorem ncycle_cursor_is_no_register_input (v : Z) :
  0 <= v <= 190 ->
  exists f, sqlite3OpcodeProperty v = Some f /\
            (Z.land f OPFLG_NCYCLE <> 0 -> Z.land f OPFLG_IN1 = 0).
Proof.
  intros Hv.
  destruct (opcode_property_checked
    (fun _ g => implb (flag_set g OPFLG_NCYCLE) (negb (flag_set g OPFLG_IN1)))
    v eq_refl Hv) as (f & Hf & Hchk).
  exists f. split; [exact Hf|]. intros Hn. flags_to_bool.
  rewrite Hn in Hchk. now apply negb_true_iff in Hchk.
Qed.

Lemma ncycle_cursor_is_no_register_input_OP_Column :
  0 <= OP_Column <= 190 /\
  exists f, sqlite3OpcodeProperty OP_Column = Some f /\
            (Z.land f OPFLG_NCYCLE <> 0 -> Z.land f OPFLG_IN1 = 0).
Proof.
  assert (H : 0 <= OP_Column <= 190) by (unfold OP_Column; lia).
  split; [exact H | exact (ncycle_cursor_is_no_register_input OP_Column H)].
Defined.

(** X3: for every opcode value in 0..190, the entry never declares P3 both
    an input and an output ([OPFLG_IN3] with [OPFLG_OUT3]), and it declares
    P2 both an input and an output ([OPFLG_IN2] with [OPFLG_OUT2]) for the
    one opcode [OP_ZeroOrNull] only, whose entry does so. *)
Theorem slot_read_and_written (v : Z) :
  0 <= v <= 190 ->
  exists f, sqlite3OpcodeProperty v = Some f /\
            ~ (Z.land f OPFLG_IN3 <> 0 /\ Z.land f OPFLG_OUT3 <> 0) /\
            (Z.land f OPFLG_IN2 <> 0 /\ Z.land f OPFLG_OUT2 <> 0 <->
             v = OP_ZeroOrNull).
Proof.
  intros Hv.
  destruct (opcode_property_checked
    (fun i g => negb (flag_set g OPFLG_IN3 && flag_set g OPFLG_OUT3)
                && Bool.eqb (flag_set g OPFLG_IN2 && flag_set g OPFLG_OUT2)
                            (i =? OP_ZeroOrNull))
    v eq_refl Hv) as (f & Hf & Hchk).
  exists f. split; [exact Hf|].
  apply andb_true_iff in Hchk as [H3 H2].
  apply negb_true_iff, andb_false_iff in H3. apply Bool.eqb_prop in H2.
  split.
  - intros [Hi Ho]. flags_to_bool. destruct H3; congruence.
  - rewrite <- !flag_set_true, <- andb_true_iff, H2. apply Z.eqb_eq.
Qed.

Lemma slot_read_and_written_OP_ZeroOrNull :
  0 <= OP_ZeroOrNull <= 190 /\
  exists f, sqlite3OpcodeProperty OP_ZeroOrNull = Some f /\
            ~ (Z.land f OPFLG_IN3 <> 0 /\ Z.land f OPFLG_OUT3 <> 0) /\
            (Z.land f OPFLG_IN2 <> 0 /\ Z.land f OPFLG_OUT2 <> 0 <->
             OP_ZeroOrNull = OP_ZeroOrNull).
Proof.
  assert (H : 0 <= OP_ZeroOrNull <= 190) by (unfold OP_ZeroOrNull; lia).
  split; [exact H | exact (slot_read_and_written OP_ZeroOrNull H)].
Defined.

(** ** The grouping of the jump opcodes *)

(** X4: the jump opcodes are grouped at the beginning of the list.  Every
    opcode flagged [OPFLG_JUMP] has a value from [OP_VFilter] (6) to
    [OP_Filter] (65), both of which are jumps; and from [OP_Init] (8) up to
    [SQLITE_MX_JUMP_OPCODE] the only opcodes that are no jumps are those
    whose comment pins their value to a parser token ("same as TK_xxx"). *)
Theorem jump_opcodes_are_grouped :
  (forall d, In d opcode_defs ->
     exists f, sqlite3OpcodeProperty (op_value d) = Some f /\
       (Z.land f OPFLG_JUMP <> 0 -> OP_VFilter <= op_value d <= OP_Filter) /\
       (OP_Init <= op_value d <= SQLITE_MX_JUMP_OPCODE ->
        Z.land f OPFLG_JUMP = 0 -> same_as_token d = true)) /\
  (exists f, sqlite3OpcodeProperty OP_VFilter = Some f /\ Z.land f OPFLG_JUMP <> 0) /\
  (exists f, sqlite3OpcodeProperty OP_Filter = Some f /\ Z.land f OPFLG_JUMP <> 0) /\
  OP_Filter = SQLITE_MX_JUMP_OPCODE.
Proof.
  split.
  - intros d Hd.
    assert (Hall : forallb grouping_check opcode_defs = true)
      by (vm_compute; reflexivity).
    pose proof (proj1 (forallb_forall _ _) Hall d Hd) as Hchk.
    unfold grouping_check in Hchk.
    destruct (sqlite3OpcodeProperty (op_value d)) as [f|]; [|discriminate].
    apply andb_true_iff in Hchk as [Hrange Hgap].
    exists f. split; [reflexivity|]. split.
    + intros Hj. flags_to_bool. rewrite Hj in Hrange. cbn [implb] in Hrange.
      apply andb_true_iff in Hrange as [Hlo Hhi].
      apply Z.leb_le in Hlo. apply Z.leb_le in Hhi. lia.
    + intros [Hlo Hhi] Hj. flags_to_bool.
      apply Z.leb_le in Hlo. apply Z.leb_le in Hhi.
      now rewrite Hlo, Hhi, Hj in Hgap.
  - split; [|split; [|reflexivity]].
    + exists 0x41. split; [reflexivity | discriminate].
    + exists 0x01. split; [reflexivity | discriminate].
Qed.

(** ** The fields of the comments *)

Example synopsis_OP_Or :
  synopsis (mkOpcodeDef "OP_Or" OP_Or
              (Some "same as TK_OR, synopsis: r[P3]=(r[P1] || r[P2])"))
  = Some "r[P3]=(r[P1] || r[P2])".
Proof. reflexivity. Qed.

Example synopsis_OP_IfPos :
  synopsis (mkOpcodeDef "OP_IfPos" OP_IfPos
              (Some "jump, synopsis: if r[P1]>0 then r[P1]-=P3, goto P2"))
  = Some "if r[P1]>0 then r[P1]-=P3, goto P2".
Proof. reflexivity. Qed.

Example synopsis_OP_Goto :
  synopsis (mkOpcodeDef "OP_Goto" OP_Goto (Some "jump")) = None.
Proof. reflexivity. Qed.

Lemma first_field_is_hd (a : string) (d : OpcodeDef) :
  first_field_is a d = true <-> hd_error (annotations (op_comment d)) = Some a.
Proof.
  unfold first_field_is. destruct (annotations (op_comment d)) as [|x l]; cbn.
  - split; discriminate.
  - rewrite String.eqb_eq. split; [intros -> | intros [= ->]]; reflexivity.
Qed.

(** X5: in the comment of every opcode definition, the annotation "jump" or
    "jump0" stands as the first field or not at all, a comment never has
    both, and none of the other legend names (in1, in2, in3, out2, out3,
    ncycle) occurs as a field: the comments show the jump properties only. *)
Theorem jump_annotation_is_first_field (d : OpcodeDef) :
  In d opcode_defs ->
  (carries "jump" d = true <->
   hd_error (annotations (op_comment d)) = Some "jump") /\
  (carries "jump0" d = true <->
   hd_error (annotations (op_comment d)) = Some "jump0") /\
  ~ (carries "jump" d = true /\ carries "jump0" d = true) /\
  (forall n, In n operand_legend_names -> carries n d = false).
Proof.
  intros Hd.
  assert (Hall : forallb comment_check opcode_defs = true)
    by (vm_compute; reflexivity).
  pose proof (proj1 (forallb_forall _ _) Hall d Hd) as Hchk.
  unfold comment_check in Hchk.
  apply andb_true_iff in Hchk as [Hchk Hnames].
  apply andb_true_iff in Hchk as [Hj Hj0].
  apply Bool.eqb_prop in Hj, Hj0.
  assert (H1 : carries "jump" d = true <->
               hd_error (annotations (op_comment d)) = Some "jump")
    by (rewrite Hj; apply first_field_is_hd).
  assert (H2 : carries "jump0" d = true <->
               hd_error (annotations (op_comment d)) = Some "jump0")
    by (rewrite Hj0; apply first_field_is_hd).
  split; [exact H1|]. split; [exact H2|]. split.
  - intros [Ha Hb]. apply H1 in Ha. apply H2 in Hb. congruence.
  - intros n Hn.
    pose proof (proj1 (forallb_forall _ _) Hnames n Hn) as Hc.
    now apply negb_true_iff in Hc.
Qed.

Lemma jump_annotation_is_first_field_OP_IsNull :
  let d := mkOpcodeDef "OP_IsNull" OP_IsNull
             (Some "jump, same as TK_ISNULL, synopsis: if r[P1]==NULL goto P2") in
  In d opcode_defs /\
  (carries "jump" d = true <->
   hd_error (annotations (op_comment d)) = Some "jump") /\
  (carries "jump0" d = true <->
   hd_error (annotations (op_comment d)) = Some "jump0") /\
  ~ (carries "jump" d = true /\ carries "jump0" d = true) /\
  (forall n, In n operand_legend_names -> carries n d = false).
Proof.
  intros d.
  assert (Hd : In d opcode_defs) by (apply (nth_error_In _ 51); reflexivity).
  split; [exact Hd | exact (jump_annotation_is_first_field d Hd)].
Defined.

Example assigns_P3_assignment : assigns_P3 "r[P3]=rowset(P1)" = true.
Proof. reflexivity. Qed.

Example assigns_P3_spaced : assigns_P3 "r[P3] = sqlite_offset(P1)" = true.
Proof. reflexivity. Qed.

Example assigns_P3_test : assigns_P3 "r[P3]>0 goto P2" = false.
Proof. reflexivity. Qed.

Example assigns_P3_comparison : assigns_P3 "r[P3]==r[P1]" = false.
Proof. reflexivity. Qed.

(** X6: every opcode whose entry in the flag table has the [OPFLG_OUT3] bit
    has a synopsis in its comment, and that synopsis starts with an
    assignment to the register of P3: with "r[P3]=" that is not the
    comparison "r[P3]==", or with "r[P3] = ". *)
Theorem out3_is_documented_in_synopsis (d : OpcodeDef) :
  In d opcode_defs ->
  exists f, sqlite3OpcodeProperty (op_value d) = Some f /\
    (Z.land f OPFLG_OUT3 <> 0 ->
     exists s, synopsis d = Some s /\
       ((String.prefix "r[P3]=" s = true /\ String.prefix "r[P3]==" s = false)
        \/ String.prefix "r[P3] = " s = true)).
Proof.
  intros Hd.
  assert (Hall : forallb synopsis_check opcode_defs = true)
    by (vm_compute; reflexivity).
  pose proof (proj1 (forallb_forall _ _) Hall d Hd) as Hchk.
  unfold synopsis_check, synopsis_assigns_P3, assigns_P3 in Hchk.
  destruct (sqlite3OpcodeProperty (op_value d)) as [f|]; [|discriminate].
  exists f. split; [reflexivity|]. intros Ho. flags_to_bool.
  rewrite Ho in Hchk. cbn [implb] in Hchk.
  destruct (synopsis d) as [s|]; [|discriminate].
  exists s. split; [reflexivity|].
  apply orb_true_iff in Hchk as [Hchk | Hchk]; [left | right; exact Hchk].
  apply andb_true_iff in Hchk as [Hp Hn]. apply negb_true_iff in Hn. tauto.
Qed.

Lemma out3_is_documented_in_synopsis_OP_RowSetRead :
  let d := mkOpcodeDef "OP_RowSetRead" OP_RowSetRead
             (Some "jump, synopsis: r[P3]=rowset(P1)") in
  In d opcode_defs /\
  exists f, sqlite3OpcodeProperty (op_value d) = Some f /\
    (Z.land f OPFLG_OUT3 <> 0 ->
     exists s, synopsis d = Some s /\
       ((String.prefix "r[P3]=" s = true /\ String.prefix "r[P3]==" s = false)
        \/ String.prefix "r[P3] = " s = true)).
Proof.
  intros d.
  assert (Hd : In d opcode_defs) by (apply (nth_error_In _ 47); reflexivity).
  split; [exact Hd | exact (out3_is_documented_in_synopsis d Hd)].
Defined.

(** ** Names and values *)

Lemma name_check_all : forallb name_check opcode_defs = true.
Proof. vm_compute. reflexivity. Qed.

Lemma opcode_def_found (d : OpcodeDef) :
  In d opcode_defs ->
  opcode_of_name (op_name d) = Some (op_value d) /\
  name_of_opcode (op_value d) = Some (op_name d) /\
  String.prefix "OP_" (op_name d) = true.
Proof.
  intros Hd.
  pose proof (proj1 (forallb_forall _ _) name_check_all d Hd) as Hchk.
  unfold name_check in Hchk.
  destruct (opcode_of_name (op_name d)) as [v|]; [|discriminate].
  destruct (name_of_opcode (op_value d)) as [n|]; [|discriminate].
  apply andb_true_iff in Hchk as [Hchk Hp].
  apply andb_true_iff in Hchk as [Hv Hn].
  apply Z.eqb_eq in Hv. apply String.eqb_eq in Hn. now subst.
Qed.

Lemma opcode_of_name_In (n : string) (v : Z) :
  opcode_of_name n = Some v ->
  exists d, In d opcode_defs /\ op_name d = n /\ op_value d = v.
Proof.
  unfold opcode_of_name.
  destruct (List.find _ opcode_defs) as [d|] eqn:Hfind; [|discriminate].
  intros [= <-]. apply find_some in Hfind as [Hd Hn].
  apply String.eqb_eq in Hn. eauto.
Qed.

Lemma name_of_opcode_In (v : Z) (n : string) :
  name_of_opcode v = Some n ->
  exists d, In d opcode_defs /\ op_name d = n /\ op_value d = v.
Proof.
  unfold name_of_opcode.
  destruct (List.find _ opcode_defs) as [d|] eqn:Hfind; [|discriminate].
  intros [= <-]. apply find_some in Hfind as [Hd Hv].
  apply Z.eqb_eq in Hv. eauto.
Qed.

Lemma opcode_name_determines_def (d1 d2 : OpcodeDef) :
  In d1 opcode_defs -> In d2 opcode_defs ->
  op_name d1 = op_name d2 -> d1 = d2.
Proof.
  intros H1 H2 Heq. apply opcode_value_determines_def; [assumption..|].
  destruct (opcode_def_found d1 H1) as [Hv1 _].
  destruct (opcode_def_found d2 H2) as [Hv2 _].
  rewrite Heq in Hv1. congruence.
Qed.

(** X7: the header defines a one-to-one correspondence of names and values.
    No name is defined twice and every name starts with "OP_"; looking a
    defined name up gives its value and looking that value up gives the name
    back; a name has the value [v] exactly when [v] has that name; and a
    name that is not defined has no value, as a value outside 0..190 has no
    name. *)
Theorem opcode_names_and_values_correspond :
  List.NoDup (map op_name opcode_defs) /\
  (forall d, In d opcode_defs ->
     opcode_of_name (op_name d) = Some (op_value d) /\
     name_of_opcode (op_value d) = Some (op_name d) /\
     String.prefix "OP_" (op_name d) = true) /\
  (forall n v, opcode_of_name n = Some v <-> name_of_opcode v = Some n) /\
  (forall n, ~ In n (map op_name opcode_defs) -> opcode_of_name n = None) /\
  (forall v, ~ 0 <= v <= 190 -> name_of_opcode v = None).
Proof.
  split; [|split; [exact opcode_def_found|split; [|split]]].
  - apply NoDup_map_NoDup_ForallPairs.
    + intros d1 d2 H1 H2. now apply opcode_name_determines_def.
    + apply (NoDup_map_inv op_value), opcode_values_NoDup.
  - intros n v. split; intros H.
    + apply opcode_of_name_In in H as (d & Hd & <- & <-).
      apply (opcode_def_found d Hd).
    + apply name_of_opcode_In in H as (d & Hd & <- & <-).
      apply (opcode_def_found d Hd).
  - intros n Hn. destruct (opcode_of_name n) as [v|] eqn:Hv; [|reflexivity].
    apply opcode_of_name_In in Hv as (d & Hd & <- & _).
    destruct Hn. now apply in_map.
  - intros v Hv. destruct (name_of_opcode v) as [n|] eqn:Hn; [|reflexivity].
    apply name_of_opcode_In in Hn as (d & Hd & _ & <-).
    destruct Hv. now apply opcode_defs_value_range.
Qed.

(** ** Jumps that the flag table does not know *)

(** X8: an opcode whose synopsis says "goto P2" is flagged [OPFLG_JUMP] in
    the table unless it is [OP_SorterCompare]: that one opcode goes to P2 by
    its synopsis, has an entry without any flag, and lies above
    [SQLITE_MX_JUMP_OPCODE]. *)
Theorem goto_synopsis_and_jump_flag :
  (forall d, In d opcode_defs -> synopsis_goes_to_P2 d = true ->
     exists f, sqlite3OpcodeProperty (op_value d) = Some f /\
       (Z.land f OPFLG_JUMP <> 0 <-> op_value d <> OP_SorterCompare)) /\
  (exists d, In d opcode_defs /\ op_value d = OP_SorterCompare /\
     synopsis_goes_to_P2 d = true /\
     sqlite3OpcodeProperty (op_value d) = Some 0x00 /\
     SQLITE_MX_JUMP_OPCODE < op_value d).
Proof.
  split.
  - intros d Hd Hgoto.
    assert (Hall : forallb goto_check opcode_defs = true)
      by (vm_compute; reflexivity).
    pose proof (proj1 (forallb_forall _ _) Hall d Hd) as Hchk.
    unfold goto_check in Hchk.
    destruct (sqlite3OpcodeProperty (op_value d)) as [f|]; [|discriminate].
    rewrite Hgoto in Hchk. cbn [implb] in Hchk. apply Bool.eqb_prop in Hchk.
    exists f. split; [reflexivity|].
    rewrite <- flag_set_true, Hchk, negb_true_iff. apply Z.eqb_neq.
  - exists (mkOpcodeDef "OP_SorterCompare" OP_SorterCompare
              (Some "synopsis: if key(P1)!=trim(r[P3],P4) goto P2")).
    split; [apply (nth_error_In _ 133); reflexivity|].
    repeat split; reflexivity.
Qed.
